(** * secparse.db: the EDGAR filing store

    A shallow embedding of [src/secparse/db.py]: the four-table schema, the
    session-scoped data-access object [EdgarDatabase], its lookup queries and
    the spreadsheet ingestion routine [set_filing_data].

    The ORM session and the spreadsheet array are library objects; they are
    modelled by what the code observes of them:
    - the store is four tables, each a list of rows in insertion order; a
      query that reads rows answers in that order, a query for the key
      column alone in the order of the key;
    - a session holds the rows visible inside the open transaction, the
      objects staged with [add_all] and not yet written, and the committed
      database underneath; every query first writes the staged objects
      (the session is created with the default autoflush);
    - Python exceptions are an explicit [Raise] outcome, state changes made
      before a raise are kept;
    - a row holds the values the code assigned to the object; what the
      declared type of a column makes of a value decides whether the write
      goes through: the value of a data point must convert to a float, and
      two data points have the same key when their terms are the same text
      and their periods the same number. Numbers are exact decimals (the
      rounding to a double is not modelled) and stay within the engine's
      integers. *)

From Stdlib Require Import List String Ascii Bool Arith ZArith Lia Permutation
  Sorted DecimalString.
Import ListNotations.
Local Open Scope string_scope.
Local Open Scope list_scope.

(* ================================================================== *)
(** ** Python values, exceptions and outcomes *)

Module Py.

(** The exception classes the module raises or catches, and [Other] for
    any other class a library call may raise. [SystemExit] is what
    [sys.exit] raises; nothing in the module catches it. *)
Inductive exn : Type :=
| TypeError
| ValueError
| IndexError
| AttributeError
| IntegrityError
| StatementError
| SystemExit (code : Z)
| Other (name : string).

Inductive outcome (A : Type) : Type :=
| Ret (a : A)
| Raise (e : exn).
Arguments Ret {A} a.
Arguments Raise {A} e.

(** A spreadsheet cell as the array holds it: empty, text or a number. *)
Inductive cell : Type :=
| CNone
| CStr (s : string)
| CNum (z : Z).

Definition cell_eqb (a b : cell) : bool :=
  match a, b with
  | CNone, CNone => true
  | CStr x, CStr y => String.eqb x y
  | CNum x, CNum y => Z.eqb x y
  | _, _ => false
  end.

(** Python truthiness: [None], the empty string and zero are falsy. *)
Definition truthy (c : cell) : bool :=
  match c with
  | CNone => false
  | CStr s => negb (String.eqb s "")
  | CNum z => negb (Z.eqb z 0)
  end.

(** [seq[i]] for a non-negative index. *)
Definition getitem {A : Type} (l : list A) (i : nat) : outcome A :=
  match nth_error l i with
  | Some a => Ret a
  | None => Raise IndexError
  end.

(** [seq[-1]]. *)
Fixpoint getitem_last {A : Type} (l : list A) : outcome A :=
  match l with
  | [] => Raise IndexError
  | [a] => Ret a
  | _ :: l' => getitem_last l'
  end.

(** [range(lo, hi)]. *)
Definition range (lo hi : nat) : list nat := seq lo (hi - lo).

(** [l[i : i + n]]. *)
Definition slice {A : Type} (l : list A) (i n : nat) : list A :=
  firstn n (skipn i l).

End Py.
Import Py.

(* ================================================================== *)
(** ** Strings *)

Module Str.

Definition is_upper (c : ascii) : bool :=
  let n := nat_of_ascii c in Nat.leb 65 n && Nat.leb n 90.

Definition lower_char (c : ascii) : ascii :=
  if is_upper c then ascii_of_nat (nat_of_ascii c + 32) else c.

(** ASCII lower-casing, as the store's [lower()] does it. *)
Fixpoint lower (s : string) : string :=
  match s with
  | EmptyString => EmptyString
  | String c s' => String (lower_char c) (lower s')
  end.

Definition percent : ascii := "%"%char.
Definition underscore : ascii := "_"%char.

Definition is_wildcard (c : ascii) : bool :=
  Ascii.eqb c percent || Ascii.eqb c underscore.

Fixpoint wildcard_free (s : string) : bool :=
  match s with
  | EmptyString => true
  | String c s' => negb (is_wildcard c) && wildcard_free s'
  end.

(** The store's [LIKE]: [%] matches any run of characters, [_] any one
    character, every other character itself; no escape character. *)
Fixpoint like (p s : string) {struct p} : bool :=
  match p with
  | EmptyString =>
      match s with EmptyString => true | _ => false end
  | String pc p' =>
      if Ascii.eqb pc percent then
        (fix skip (t : string) : bool :=
           like p' t ||
           match t with
           | EmptyString => false
           | String _ t' => skip t'
           end) s
      else
        match s with
        | EmptyString => false
        | String sc s' =>
            (Ascii.eqb pc underscore || Ascii.eqb pc sc) && like p' s'
        end
  end.

(** [column.ilike(term)]: both sides lower-cased, then [LIKE];
    a NULL column matches nothing. *)
Definition ilike (v : option string) (term : string) : bool :=
  match v with
  | Some s => like (lower term) (lower s)
  | None => false
  end.

(** [s.replace(old, new)] for a non-empty [old]: every non-overlapping
    occurrence, left to right. [skip] counts the characters of a matched
    occurrence still to be dropped. *)
Fixpoint replace_from (skip : nat) (old new s : string) : string :=
  match s with
  | EmptyString => EmptyString
  | String c s' =>
      match skip with
      | S k => replace_from k old new s'
      | O =>
          if String.prefix old s
          then new ++ replace_from (String.length old - 1) old new s'
          else String c (replace_from 0 old new s')
      end
  end.

Definition replace (s old new : string) : string :=
  replace_from 0 old new s.

Definition digit (n : nat) : ascii := ascii_of_nat (48 + n mod 10).

Definition two_digits (n : nat) : string :=
  String (digit (n / 10)) (String (digit n) EmptyString).

Definition four_digits (n : nat) : string :=
  String (digit (n / 1000)) (String (digit (n / 100)) (two_digits n)).

(** A run of decimal digits read as a number. *)
Fixpoint number_from (acc : nat) (s : string) : option nat :=
  match s with
  | EmptyString => Some acc
  | String c s' =>
      let n := nat_of_ascii c in
      if Nat.leb 48 n && Nat.leb n 57
      then number_from (10 * acc + (n - 48)) s'
      else None
  end.

Definition number (s : string) : option nat :=
  match s with
  | EmptyString => None
  | _ => number_from 0 s
  end.

End Str.

(* ================================================================== *)
(** ** Numbers as the columns read them *)

Module Number.

(** The decimal [m / 10^places] with no trailing zero among its places, an
    infinity, or not-a-number. *)
Inductive t : Type :=
| Dec (m : Z) (places : nat)
| Inf (negative : bool)
| NaN.

Definition eqb (a b : t) : bool :=
  match a, b with
  | Dec m p, Dec m' p' => Z.eqb m m' && Nat.eqb p p'
  | Inf n, Inf n' => Bool.eqb n n'
  | NaN, NaN => true
  | _, _ => false
  end.

(** Trailing zeros of the places are dropped. *)
Fixpoint reduce (m : Z) (places : nat) : t :=
  match places with
  | O => Dec m 0
  | S p => if Z.eqb (Z.modulo m 10) 0 then reduce (Z.div m 10) p else Dec m (S p)
  end.

(** [digits * 10^exponent], negated when [negative]. *)
Definition scaled (negative : bool) (digits : Z) (exponent : Z) : t :=
  let m := if negative then Z.opp digits else digits in
  if Z.leb 0 exponent then Dec (m * 10 ^ exponent) 0
  else reduce m (Z.to_nat (Z.opp exponent)).

Definition is_digit (c : ascii) : bool :=
  let n := nat_of_ascii c in Nat.leb 48 n && Nat.leb n 57.

(** The digits at the front of [s], read on from [value]: the number, how
    many digits were read, and what follows them. *)
Fixpoint digits_from (value : Z) (count : nat) (s : string) : Z * nat * string :=
  match s with
  | String c s' =>
      if is_digit c
      then digits_from (10 * value + Z.of_nat (nat_of_ascii c - 48)) (S count) s'
      else (value, count, s)
  | EmptyString => (value, count, s)
  end.

(** An optional sign: whether it is a minus, and what follows it. *)
Definition sign_from (s : string) : bool * string :=
  match s with
  | String c s' =>
      if Ascii.eqb c "-"%char then (true, s')
      else if Ascii.eqb c "+"%char then (false, s')
      else (false, s)
  | EmptyString => (false, s)
  end.

(** What follows the mantissa: nothing, or [e] or [E], an optional sign and
    at least one digit, up to the end of the text. *)
Definition exponent_from (s : string) : option Z :=
  match s with
  | EmptyString => Some 0%Z
  | String c s' =>
      if Ascii.eqb c "e"%char || Ascii.eqb c "E"%char then
        let (negative, s1) := sign_from s' in
        match digits_from 0 0 s1 with
        | (x, n, EmptyString) =>
            if Nat.ltb 0 n then Some (if negative then Z.opp x else x) else None
        | _ => None
        end
      else None
  end.

(** A decimal literal that is the whole text: an optional sign, digits with
    an optional point (at least one digit in all), an optional exponent. *)
Definition decimal (s : string) : option t :=
  let (negative, s0) := sign_from s in
  match digits_from 0 0 s0 with
  | (i, n1, s1) =>
      match (match s1 with
             | String c s1' =>
                 if Ascii.eqb c "."%char then digits_from i 0 s1' else (i, O, s1)
             | EmptyString => (i, O, s1)
             end) with
      | (v, n2, s2) =>
          if Nat.eqb (n1 + n2) 0 then None
          else match exponent_from s2 with
               | Some x => Some (scaled negative v (x - Z.of_nat n2))
               | None => None
               end
      end
  end.

Fixpoint lstrip (space : ascii -> bool) (s : string) : string :=
  match s with
  | String c s' => if space c then lstrip space s' else s
  | EmptyString => EmptyString
  end.

Fixpoint rstrip (space : ascii -> bool) (s : string) : string :=
  match s with
  | EmptyString => EmptyString
  | String c s' =>
      let r := rstrip space s' in
      if space c && String.eqb r "" then EmptyString else String c r
  end.

Definition strip (space : ascii -> bool) (s : string) : string :=
  rstrip space (lstrip space s).

(** White space for Python's [float]: tab to carriage return, the four
    separators below the blank, and the blank. *)
Definition py_space (c : ascii) : bool :=
  let n := nat_of_ascii c in
  (Nat.leb 9 n && Nat.leb n 13) || (Nat.leb 28 n && Nat.leb n 32).

(** White space for the engine's reading of text as a number. *)
Definition sqlite_space (c : ascii) : bool :=
  let n := nat_of_ascii c in
  (Nat.leb 9 n && Nat.leb n 13) || Nat.eqb n 32.

(** Underscores are taken out of a numeric text; one is allowed only
    between two digits. [prev] is the character before [s]. *)
Fixpoint without_underscores (prev : ascii) (s : string) : option string :=
  match s with
  | EmptyString => if Ascii.eqb prev "_"%char then None else Some EmptyString
  | String c s' =>
      if Ascii.eqb c "_"%char then
        if is_digit prev then without_underscores c s' else None
      else if Ascii.eqb prev "_"%char && negb (is_digit c) then None
      else option_map (String c) (without_underscores c s')
  end.

(** [inf], [infinity] or [nan] in any letter case, with an optional sign. *)
Definition special (s : string) : option t :=
  let (negative, r) := sign_from s in
  let r := Str.lower r in
  if String.eqb r "inf" || String.eqb r "infinity" then Some (Inf negative)
  else if String.eqb r "nan" then Some NaN
  else None.

(** [float(s)] for a text [s]: [None] is its [ValueError]. *)
Definition of_text (s : string) : option t :=
  match without_underscores Ascii.zero (strip py_space s) with
  | None => None
  | Some s' =>
      match decimal s' with
      | Some n => Some n
      | None => special s'
      end
  end.

(** The bind conversion of a Float column: [None] stays [None], anything
    else goes through [float]. *)
Definition to_float (c : cell) : outcome (option t) :=
  match c with
  | CNone => Ret None
  | CNum z => Ret (Some (Dec z 0))
  | CStr s =>
      match of_text s with
      | Some n => Ret (Some n)
      | None => Raise ValueError
      end
  end.

(** A text column keeps text as it is and a number as its decimal text. *)
Definition to_text (c : cell) : option string :=
  match c with
  | CNone => None
  | CStr s => Some s
  | CNum z => Some (NilZero.string_of_int (Z.to_int z))
  end.

(** An integer column reads a text that is a number as that number and
    keeps any other text. *)
Definition of_integer_column (s : string) : t + string :=
  match decimal (strip sqlite_space s) with
  | Some n => inl n
  | None => inr s
  end.

End Number.

(* ================================================================== *)
(** ** Dates *)

Module Date.

(** The calendar part of a [datetime]; the format used by the ingestion
    routine prints nothing else. *)
Record datetime : Type := mk_datetime { year : nat; month : nat; day : nat }.

(** [datetime.strftime(d, '%Y%m%d')]. *)
Definition strftime_Ymd (d : datetime) : string :=
  Str.four_digits (year d) ++ Str.two_digits (month d) ++ Str.two_digits (day d).

End Date.

(* ================================================================== *)
(** ** The schema: four tables *)

Module SicInfo.
Record t : Type := mk {
  sic_code : string;
  ad_office : option string;
  industry_title : option string }.
End SicInfo.

Module CompanyInfo.
Record t : Type := mk {
  company_cik : string;
  company_name : option string;
  company_ticker : option string;
  company_sic : option string;
  company_state : option string;
  company_info_attempted : option bool }.
End CompanyInfo.

Module FilingInfo.
Record t : Type := mk {
  company_cik : option string;
  filing_accession : string;
  form : option string;
  period : option Z;
  filed : option Z;
  filing_url : option string;
  excel_url : option string;
  excel_path : option string;
  parsed_data : option bool;
  parsing_attempted : option bool }.

(** [c.parsed_data = v] *)
Definition with_parsed_data (v : option bool) (c : t) : t :=
  mk (company_cik c) (filing_accession c) (form c) (period c) (filed c)
     (filing_url c) (excel_url c) (excel_path c) v (parsing_attempted c).

(** [c.excel_path = v] *)
Definition with_excel_path (v : option string) (c : t) : t :=
  mk (company_cik c) (filing_accession c) (form c) (period c) (filed c)
     (filing_url c) (excel_url c) v (parsed_data c) (parsing_attempted c).
End FilingInfo.

Module FilingData.
Record t : Type := mk {
  filing_accession : string;
  filing_term : cell;
  filing_type : string;
  filing_value : cell;
  value_period : string }.

(** The composite primary key as the engine compares it: the accession,
    the term as the text column holds it, the period as the integer column
    holds it. *)
Definition key (a : t) : string * option string * (Number.t + string) :=
  (filing_accession a, Number.to_text (filing_term a),
   Number.of_integer_column (value_period a)).

Definition same_key (a b : t) : bool :=
  String.eqb (filing_accession a) (filing_accession b)
  && match Number.to_text (filing_term a), Number.to_text (filing_term b) with
     | Some x, Some y => String.eqb x y
     | None, None => true
     | _, _ => false
     end
  && match Number.of_integer_column (value_period a),
           Number.of_integer_column (value_period b) with
     | inl x, inl y => Number.eqb x y
     | inr x, inr y => String.eqb x y
     | _, _ => false
     end.

End FilingData.

(** The columns the lookups filter on. *)
Module Col.
Inductive company : Type :=
| company_cik | company_name | company_ticker | company_sic | company_state.

Inductive filing : Type :=
| filing_accession | filing_url.

Inductive joined : Type :=
| OfCompany (c : company)
| OfFiling (c : filing).

Definition company_value (c : company) (r : CompanyInfo.t) : option string :=
  match c with
  | company_cik => Some (CompanyInfo.company_cik r)
  | company_name => CompanyInfo.company_name r
  | company_ticker => CompanyInfo.company_ticker r
  | company_sic => CompanyInfo.company_sic r
  | company_state => CompanyInfo.company_state r
  end.

Definition filing_value (c : filing) (r : FilingInfo.t) : option string :=
  match c with
  | filing_accession => Some (FilingInfo.filing_accession r)
  | filing_url => FilingInfo.filing_url r
  end.

Definition joined_value (c : joined) (r : FilingInfo.t * CompanyInfo.t)
  : option string :=
  match c with
  | OfCompany cc => company_value cc (snd r)
  | OfFiling fc => filing_value fc (fst r)
  end.
End Col.

(* ================================================================== *)
(** ** The store *)

Module Store.

Record t : Type := mk {
  sic : list SicInfo.t;
  companies : list CompanyInfo.t;
  filings : list FilingInfo.t;
  filing_data : list FilingData.t }.

Definition empty : t := mk [] [] [] [].

(** A mapped object of one of the four classes. *)
Inductive entity : Type :=
| Sic (r : SicInfo.t)
| Company (r : CompanyInfo.t)
| Filing (r : FilingInfo.t)
| Data (r : FilingData.t).

(** The values of an object can be bound to its INSERT: the value of a
    data point converts to a float. The other columns take what the
    objects hold. *)
Definition converts (e : entity) : bool :=
  match e with
  | Data r =>
      match Number.to_float (FilingData.filing_value r) with
      | Ret _ => true
      | Raise _ => false
      end
  | _ => true
  end.

(** One INSERT at the engine, the values bound. [None] is an integrity
    violation: a primary key already present in the table, or a NULL in a
    key column. References between tables are not checked (the engine is
    opened without enabling them). *)
Definition insert (st : t) (e : entity) : option t :=
  match e with
  | Sic r =>
      if existsb (fun x => String.eqb (SicInfo.sic_code x) (SicInfo.sic_code r))
                 (sic st)
      then None
      else Some (mk (sic st ++ [r]) (companies st) (filings st) (filing_data st))
  | Company r =>
      if existsb (fun x => String.eqb (CompanyInfo.company_cik x)
                                      (CompanyInfo.company_cik r))
                 (companies st)
      then None
      else Some (mk (sic st) (companies st ++ [r]) (filings st) (filing_data st))
  | Filing r =>
      if existsb (fun x => String.eqb (FilingInfo.filing_accession x)
                                      (FilingInfo.filing_accession r))
                 (filings st)
      then None
      else Some (mk (sic st) (companies st) (filings st ++ [r]) (filing_data st))
  | Data r =>
      match FilingData.filing_term r with
      | CNone => None
      | _ =>
          if existsb (FilingData.same_key r) (filing_data st)
          then None
          else Some (mk (sic st) (companies st) (filings st)
                        (filing_data st ++ [r]))
      end
  end.

(** The INSERTs of one flush that goes through: every object converts and
    is accepted by the engine, in the order the objects were staged.
    [None] is a flush that fails. *)
Fixpoint insert_all (st : t) (es : list entity) : option t :=
  match es with
  | [] => Some st
  | e :: es' =>
      if converts e then
        match insert st e with
        | Some st' => insert_all st' es'
        | None => None
        end
      else None
  end.

(** The INSERTs at the engine alone. *)
Fixpoint accept_all (st : t) (es : list entity) : option t :=
  match es with
  | [] => Some st
  | e :: es' =>
      match insert st e with
      | Some st' => accept_all st' es'
      | None => None
      end
  end.

Definition is_data (e : entity) : bool :=
  match e with
  | Data _ => true
  | _ => false
  end.

Definition has_term (e : entity) : bool :=
  match e with
  | Data r => match FilingData.filing_term r with CNone => false | _ => true end
  | _ => true
  end.

(** The data points up to the first one without a term. *)
Fixpoint with_terms (es : list entity) : list entity :=
  match es with
  | [] => []
  | e :: es' => if has_term e then e :: with_terms es' else []
  end.

(** The exception of a flush that fails. The tables are written in the
    order of their references, the data points last. The data points that
    have all their key cells go to the engine in one statement, whose
    values are all converted before it is sent; a data point without a
    term is a statement of its own. A value that does not convert is a
    [StatementError], a refusal by the engine an [IntegrityError]. *)
Definition refusal (st : t) (es : list entity) : exn :=
  match accept_all st (filter (fun e => negb (is_data e)) es) with
  | None => IntegrityError
  | Some st' =>
      let points := filter is_data es in
      let batch := with_terms points in
      if negb (forallb converts batch) then StatementError
      else
        match accept_all st' batch with
        | None => IntegrityError
        | Some _ =>
            match skipn (List.length batch) points with
            | e :: _ => if converts e then IntegrityError else StatementError
            | [] => IntegrityError
            end
        end
  end.

(** [FilingInfo JOIN CompanyInfo] on the filing's company reference. *)
Definition join (st : t) : list (FilingInfo.t * CompanyInfo.t) :=
  flat_map
    (fun f =>
       map (pair f)
           (filter (fun c =>
                      match FilingInfo.company_cik f with
                      | Some k => String.eqb k (CompanyInfo.company_cik c)
                      | None => false
                      end)
                   (companies st)))
    (filings st).

(** [column IN (terms)]; a NULL column is in no list. *)
Definition in_ (v : option string) (terms : list string) : bool :=
  match v with
  | Some s => existsb (String.eqb s) terms
  | None => false
  end.

(** The rows of the join whose [col] is among [terms]. *)
Definition filings_in (st : t) (col : Col.joined) (terms : list string)
  : list (FilingInfo.t * CompanyInfo.t) :=
  filter (fun r => in_ (Col.joined_value col r) terms) (join st).

(** The UPDATE that an attribute assignment on a loaded filing becomes. *)
Definition update_parsed_data (accession : string) (v : option bool) (st : t) : t :=
  mk (sic st) (companies st)
     (map (fun f =>
             if String.eqb (FilingInfo.filing_accession f) accession
             then FilingInfo.with_parsed_data v f else f)
          (filings st))
     (filing_data st).

(** The values of a column, one per row of the column's table. *)
Definition column_values (st : t) (col : Col.joined) : list (option string) :=
  match col with
  | Col.OfCompany c => map (Col.company_value c) (companies st)
  | Col.OfFiling c => map (Col.filing_value c) (filings st)
  end.

(** [column == value] for a value that is not [None]; a NULL column
    equals nothing. *)
Definition equals (v : option string) (value : string) : bool :=
  match v with
  | Some s => String.eqb s value
  | None => false
  end.

Definition value_eq_dec (a b : option string) : {a = b} + {a <> b}.
Proof. decide equality. apply string_dec. Defined.

(** [SELECT DISTINCT]: each value once. *)
Definition distinct (values : list (option string)) : list (option string) :=
  nodup value_eq_dec values.

(** Texts in the order of the key's index: byte by byte. *)
Fixpoint insert_in_order (x : string) (l : list string) : list string :=
  match l with
  | [] => [x]
  | y :: l' => if String.leb x y then x :: l else y :: insert_in_order x l'
  end.

Definition in_key_order (l : list string) : list string :=
  fold_right insert_in_order [] l.

(** The UPDATE that assigning [excel_path] on a loaded filing becomes. *)
Definition update_excel_path (accession : string) (v : option string) (st : t) : t :=
  mk (sic st) (companies st)
     (map (fun f =>
             if String.eqb (FilingInfo.filing_accession f) accession
             then FilingInfo.with_excel_path v f else f)
          (filings st))
     (filing_data st).

End Store.

(* ================================================================== *)
(** ** The data-access object and its session *)

(** A SELECT the session sent to the engine. *)
Inductive query : Type :=
| SelectFilingsIn (col : Col.joined) (terms : list string)
| SelectCiksLike (col : Col.company) (pattern : string)
| SelectFilingByAccession (accession : string).

Record EdgarDatabase : Type := mk_db {
  db_eng : Store.t;                 (* the committed database *)
  session_rows : Store.t;           (* rows seen inside the open transaction *)
  session_new : list Store.entity;  (* staged by add_all, not yet written *)
  queries : list query;             (* SELECTs sent so far, oldest first *)
  stdout : list string }.

(** The state-and-exception monad of the methods of [EdgarDatabase]. *)
Definition M (A : Type) : Type := EdgarDatabase -> EdgarDatabase * outcome A.

Definition ret {A : Type} (a : A) : M A := fun self => (self, Ret a).

Definition raise {A : Type} (e : exn) : M A := fun self => (self, Raise e).

Definition bind {A B : Type} (m : M A) (k : A -> M B) : M B :=
  fun self =>
    match m self with
    | (self', Ret a) => k a self'
    | (self', Raise e) => (self', Raise e)
    end.

Definition lift {A : Type} (o : outcome A) : M A := fun self => (self, o).

(** [try: body except (handled): handler] *)
Definition try_except {A : Type} (body : M A) (handled : exn -> bool)
  (handler : M A) : M A :=
  fun self =>
    match body self with
    | (self', Ret a) => (self', Ret a)
    | (self', Raise e) => if handled e then handler self' else (self', Raise e)
    end.

Declare Scope py_scope.
Delimit Scope py_scope with py.
Notation "x <- m ;; k" := (bind m (fun x => k))
  (at level 100, m at next level, right associativity) : py_scope.
Notation "m ;; k" := (bind m (fun _ => k))
  (at level 100, right associativity) : py_scope.
Local Open Scope py_scope.

(** What a block of statements tells the code around it: go on with a
    value, or return from the function. *)
Inductive flow (A R : Type) : Type :=
| Next (a : A)
| Return (r : R).
Arguments Next {A R} a.
Arguments Return {A R} r.

(** [for x in xs: body] followed by [return default]. *)
Fixpoint for_in {X R : Type} (xs : list X) (body : X -> M (flow unit R))
  (default : R) : M R :=
  match xs with
  | [] => ret default
  | x :: xs' =>
      f <- body x ;;
      match f with
      | Return r => ret r
      | Next _ => for_in xs' body default
      end
  end.

(** [out = list()] then [for x in xs: out.append(f(x))]. *)
Fixpoint for_append {X Y : Type} (xs : list X) (f : X -> M Y) : M (list Y) :=
  match xs with
  | [] => ret []
  | x :: xs' =>
      y <- f x ;;
      ys <- for_append xs' f ;;
      ret (y :: ys)
  end.

(** [for x in xs: body] with a body that never returns. *)
Fixpoint for_each {X : Type} (xs : list X) (body : X -> M unit) : M unit :=
  match xs with
  | [] => ret tt
  | x :: xs' => body x ;; for_each xs' body
  end.

(** A result row of a query for the cik column alone. *)
Module CikRow.
Record t : Type := mk { company_cik : string }.
End CikRow.

(** [try: body except (handled) as err: handler(err)] *)
Definition try_except_as {A : Type} (body : M A) (handled : exn -> bool)
  (handler : exn -> M A) : M A :=
  fun self =>
    match body self with
    | (self', Ret a) => (self', Ret a)
    | (self', Raise e) => if handled e then handler e self' else (self', Raise e)
    end.

Module Session.

Definition add_all (objects : list Store.entity) : M unit :=
  fun self =>
    (mk_db (db_eng self) (session_rows self) (session_new self ++ objects)
           (queries self) (stdout self), Ret tt).

(** Writing the staged objects into the open transaction. *)
Definition flush : M unit :=
  fun self =>
    match Store.insert_all (session_rows self) (session_new self) with
    | Some st => (mk_db (db_eng self) st [] (queries self) (stdout self), Ret tt)
    | None =>
        (self, Raise (Store.refusal (session_rows self) (session_new self)))
    end.

Definition rollback : M unit :=
  fun self =>
    (mk_db (db_eng self) (db_eng self) [] (queries self) (stdout self), Ret tt).

Definition commit : M unit :=
  flush ;;
  fun self =>
    (mk_db (session_rows self) (session_rows self) (session_new self)
           (queries self) (stdout self), Ret tt).

Definition sent (q : query) : M unit :=
  fun self =>
    (mk_db (db_eng self) (session_rows self) (session_new self)
           (queries self ++ [q]) (stdout self), Ret tt).

Definition rows : M Store.t := fun self => (self, Ret (session_rows self)).

(** [query(FilingInfo, CompanyInfo).join(CompanyInfo).filter(col.in_(terms)).all()] *)
Definition query_filings_in (col : Col.joined) (terms : list string)
  : M (list (FilingInfo.t * CompanyInfo.t)) :=
  flush ;;
  sent (SelectFilingsIn col terms) ;;
  st <- rows ;;
  ret (Store.filings_in st col terms).

(** [query(CompanyInfo.company_cik).filter(col.ilike(term)).all()] *)
Definition query_ciks_ilike (col : Col.company) (term : string)
  : M (list CompanyInfo.t) :=
  flush ;;
  sent (SelectCiksLike col term) ;;
  st <- rows ;;
  ret (filter (fun c => Str.ilike (Col.company_value col c) term)
              (Store.companies st)).

(** [query(FilingInfo).filter(FilingInfo.filing_accession == accession).all()] *)
Definition query_filing_by_accession (accession : string)
  : M (list FilingInfo.t) :=
  flush ;;
  sent (SelectFilingByAccession accession) ;;
  st <- rows ;;
  ret (filter (fun f => String.eqb (FilingInfo.filing_accession f) accession)
              (Store.filings st)).

(** [c.parsed_data = v] on an object the session loaded: the row with the
    object's key changes inside the open transaction. *)
Definition set_parsed_data (c : FilingInfo.t) (v : option bool) : M unit :=
  fun self =>
    (mk_db (db_eng self)
           (Store.update_parsed_data (FilingInfo.filing_accession c) v
                                     (session_rows self))
           (session_new self) (queries self) (stdout self), Ret tt).

(** The queries below are not entered in [queries]. *)

(** [query(distinct(column)).filter(exists().where(column == value)).first()]:
    the subquery has the column's table as its only source and stands on
    its own, so the filter keeps every row or none; [first] gives the
    first row of the distinct values, or [None]. *)
Definition query_first_distinct_where_exists (col : Col.joined) (value : string)
  : M (option (option string)) :=
  flush ;;
  st <- rows ;;
  ret (if existsb (fun v => Store.equals v value) (Store.column_values st col)
       then hd_error (Store.distinct (Store.column_values st col))
       else None).

(** [query(FilingInfo, CompanyInfo).join(CompanyInfo).all()] *)
Definition query_filings_all : M (list (FilingInfo.t * CompanyInfo.t)) :=
  flush ;;
  st <- rows ;;
  ret (Store.join st).

(** [query(CompanyInfo.company_cik).all()]: one row per company, holding
    its cik. A query for the key column alone is answered from the key's
    index, so the rows come in key order. *)
Definition query_ciks_all : M (list CikRow.t) :=
  flush ;;
  st <- rows ;;
  ret (map CikRow.mk
           (Store.in_key_order (map CompanyInfo.company_cik (Store.companies st)))).

(** [query(FilingInfo).filter(FilingInfo.filing_url == filing_url).all()] *)
Definition query_filing_by_url (filing_url : string) : M (list FilingInfo.t) :=
  flush ;;
  st <- rows ;;
  ret (filter (fun f => Store.equals (FilingInfo.filing_url f) filing_url)
              (Store.filings st)).

(** [c.excel_path = v] on an object the session loaded. *)
Definition set_excel_path (c : FilingInfo.t) (v : option string) : M unit :=
  fun self =>
    (mk_db (db_eng self)
           (Store.update_excel_path (FilingInfo.filing_accession c) v
                                    (session_rows self))
           (session_new self) (queries self) (stdout self), Ret tt).

(** [session.close()]: the open transaction is ended without a commit and
    every object leaves the session. *)
Definition close : M unit := rollback.

End Session.

Definition print (s : string) : M unit :=
  fun self =>
    (mk_db (db_eng self) (session_rows self) (session_new self) (queries self)
           (stdout self ++ [s]), Ret tt).

Definition sys_exit {A : Type} (code : Z) : M A := raise (SystemExit code).

(* ================================================================== *)
(** ** The spreadsheet array *)

Module Np.

(** A two-dimensional array: [shape1] is [data.shape[1]], [rows] its rows. *)
Record ndarray : Type := mk { shape1 : nat; rows : list (list cell) }.

(** Every row has [shape1] cells. *)
Definition well_formed (data : ndarray) : bool :=
  forallb (fun row => Nat.eqb (List.length row) (shape1 data)) (rows data).

(** [data[i, j]] *)
Definition getitem2 (data : ndarray) (i j : nat) : outcome cell :=
  match getitem (rows data) i with
  | Ret row => getitem row j
  | Raise e => Raise e
  end.

(** [data[1:]] *)
Definition below_header (data : ndarray) : list (list cell) := skipn 1 (rows data).

End Np.

(* ================================================================== *)
(** ** Lookups *)

(** Modelled from the spec: [utilities.flatten] is not among the sources;
    the results of the chunks are "concatenated in chunk order". *)
Definition flatten {A : Type} (ll : list (list A)) : list A := List.concat ll.

(** [range(0, hi, step)] *)
Definition range_step (hi step : nat) : list nat :=
  map (fun k => k * step) (seq 0 ((hi + step - 1) / step)).

(** [[query_terms[i:i + 995] for i in range(0, len(query_terms), 995)]] *)
Definition query_term_chunks (query_terms : list string) : list (list string) :=
  map (fun i => slice query_terms i 995)
      (range_step (List.length query_terms) 995).

Definition _select_filings (query_col : Col.joined) (query_terms : list string)
  : M (list (FilingInfo.t * CompanyInfo.t)) :=
  if Nat.ltb (List.length query_terms) 999 then
    Session.query_filings_in query_col query_terms
  else
    query_return_list <-
      for_append (query_term_chunks query_terms)
                 (fun query_term_chunk =>
                    Session.query_filings_in query_col query_term_chunk) ;;
    ret (flatten query_return_list).

Definition select_filings_by_ciks (cik_nums : list string) :=
  _select_filings (Col.OfCompany Col.company_cik) cik_nums.

Definition select_filings_by_accessions (accession_nums : list string) :=
  _select_filings (Col.OfFiling Col.filing_accession) accession_nums.

Definition select_filings_by_url (filing_urls : list string) :=
  _select_filings (Col.OfFiling Col.filing_url) filing_urls.

Definition newline : string := String (ascii_of_nat 10) EmptyString.

(** ['No results found.\n'] *)
Definition no_results_found : string := "No results found." ++ newline.

Definition _select_distinct_ciks (query_column : Col.company) (query_term : string)
  : M (list string) :=
  distinct_ciks <- Session.query_ciks_ilike query_column query_term ;;
  match distinct_ciks with
  | [] => print no_results_found ;; sys_exit 0
  | _ => ret (map CompanyInfo.company_cik distinct_ciks)
  end.

Definition select_ciks_by_state (state_name : string) :=
  _select_distinct_ciks Col.company_state state_name.

Definition select_ciks_by_sic (sic_code : string) :=
  _select_distinct_ciks Col.company_sic sic_code.

Definition select_ciks_by_ticker (company_ticker : string) :=
  _select_distinct_ciks Col.company_ticker company_ticker.

Definition select_ciks_by_name (company_name : string) :=
  _select_distinct_ciks Col.company_name ("%" ++ company_name ++ "%").

(** [_check_exists(column, value)] *)
Definition _check_exists (column : Col.joined) (value : string) : M bool :=
  res <- Session.query_first_distinct_where_exists column value ;;
  match res with
  | None => ret false
  | Some _ => ret true
  end.

Definition check_cik_exists (cik : string) :=
  _check_exists (Col.OfCompany Col.company_cik) cik.

Definition check_filing_url_exists (filing_url : string) :=
  _check_exists (Col.OfFiling Col.filing_url) filing_url.

Definition check_accession_exists (accession : string) :=
  _check_exists (Col.OfFiling Col.filing_accession) accession.

Definition select_all_filings : M (list (FilingInfo.t * CompanyInfo.t)) :=
  Session.query_filings_all.

Definition select_all_distinct_ciks : M (list CikRow.t) :=
  Session.query_ciks_all.

(* ================================================================== *)
(** ** Writes *)

(** [objects] is one mapped object or a list of them. *)
Definition insert_objects (objects : Store.entity + list Store.entity) : M unit :=
  let objects := match objects with inl o => [o] | inr l => l end in
  Session.add_all objects.

(** [excel_path] is the text [str(excel_path)] gives. *)
Definition update_excel_path (excel_path : string) (filing_url : string) : M unit :=
  cs <- Session.query_filing_by_url filing_url ;;
  for_each cs (fun c => Session.set_excel_path c (Some excel_path)).

(** A new session on the engine: it sees the committed rows and has
    nothing staged; the session it replaces is dropped as it is. *)
Definition make_session : M unit :=
  fun self =>
    (mk_db (db_eng self) (db_eng self) [] (queries self) (stdout self), Ret tt).

Definition is_ConnectionError (e : exn) : bool :=
  match e with
  | Other name => String.eqb name "ConnectionError"
  | _ => false
  end.

Definition close_session : M unit :=
  try_except_as (Session.commit ;; Session.close)
                is_ConnectionError
                (fun err => raise err).

Section Ingestion.

(** [dateutil.parser.parse], a library function: a date or an exception. *)
Variable parse : string -> outcome Date.datetime.

(** The inner [prep_date]: [None] stands for its [False]. *)
Definition prep_date (date_str : cell) : option string :=
  match date_str with
  | CStr s => Some (Str.replace s "USD ($)" "")
  | CNone | CNum _ => None  (* AttributeError *)
  end.

Definition parse_errors (e : exn) : bool :=
  match e with
  | TypeError | ValueError | IndexError => true
  | _ => false
  end.

Definition write_errors (e : exn) : bool :=
  match e with
  | IntegrityError | StatementError => true
  | _ => false
  end.

(** Lines 178-187: the period of a column, or the function's return value. *)
Definition column_period (data : Np.ndarray) (column_num : nat)
  : M (flow string bool) :=
  try_except
    (header <- lift (Np.getitem2 data 0 column_num) ;;
     match prep_date header with
     | Some prepped_date =>
         if negb (String.eqb prepped_date "") then
           d <- lift (parse prepped_date) ;;
           ret (Next (Date.strftime_Ymd d))
         else ret (Return false)
     | None => ret (Return false)
     end)
    parse_errors
    (Session.rollback ;; ret (Return false)).

(** Lines 189-200: the records of one column. *)
Fixpoint rows_to_insert (accession : string) (filing_type : string)
  (column_num : nat) (period : string) (rows : list (list cell))
  : outcome (list FilingData.t) :=
  match rows with
  | [] => Ret []
  | row :: rest =>
      match getitem_last row with
      | Raise e => Raise e
      | Ret last =>
          if negb (truthy last) then
            rows_to_insert accession filing_type column_num period rest
          else
            match getitem row 0, getitem row column_num with
            | Ret term, Ret value =>
                match rows_to_insert accession filing_type column_num period rest with
                | Ret more =>
                    Ret (FilingData.mk accession term filing_type value period
                           :: more)
                | Raise e => Raise e
                end
            | Raise e, _ | _, Raise e => Raise e
            end
      end
  end.

(** Lines 202-211: staging the records and marking the filing. *)
Definition write_column (accession : string) (records : list FilingData.t)
  : M (flow unit bool) :=
  try_except
    (Session.add_all (map Store.Data records) ;;
     cs <- Session.query_filing_by_accession accession ;;
     for_each cs (fun c => Session.set_parsed_data c (Some true)) ;;
     ret (Next tt))
    write_errors
    (Session.rollback ;; ret (Return false)).

(** The body of the loop over the data columns. *)
Definition column_step (filing : FilingInfo.t * CompanyInfo.t) (data : Np.ndarray)
  (filing_type : string) (column_num : nat) : M (flow unit bool) :=
  p <- column_period data column_num ;;
  match p with
  | Return b => ret (Return b)
  | Next period =>
      records <- lift (rows_to_insert (FilingInfo.filing_accession (fst filing))
                         filing_type column_num period (Np.below_header data)) ;;
      w <- write_column (FilingInfo.filing_accession (fst filing)) records ;;
      match w with
      | Return b => ret (Return b)
      | Next _ => Session.commit ;; ret (Next tt)
      end
  end.

Definition set_filing_data (filing : FilingInfo.t * CompanyInfo.t)
  (data : Np.ndarray) (filing_type : string) : M bool :=
  let num_columns := Np.shape1 data in
  for_in (range 1 num_columns) (column_step filing data filing_type) true.

End Ingestion.

(* ================================================================== *)
(** ** A reader of [Mon D, YYYY] dates

    The library parser is a parameter of the ingestion routine. This small
    reader accepts one layout the library also accepts (a three-letter month
    name, a day, a year, separated by blanks, dots or commas) and raises
    [ValueError] on everything else; it serves to run the routine on
    concrete spreadsheets. *)

Module MonthDayYear.

Definition is_separator (c : ascii) : bool :=
  Ascii.eqb c " "%char || Ascii.eqb c "."%char || Ascii.eqb c ","%char.

Fixpoint tokens (current : string) (s : string) : list string :=
  match s with
  | EmptyString => if String.eqb current "" then [] else [current]
  | String c s' =>
      if is_separator c then
        if String.eqb current "" then tokens "" s' else current :: tokens "" s'
      else tokens (current ++ String c EmptyString) s'
  end.

Definition month_names : list (string * nat) :=
  [("jan", 1); ("feb", 2); ("mar", 3); ("apr", 4); ("may", 5); ("jun", 6);
   ("jul", 7); ("aug", 8); ("sep", 9); ("oct", 10); ("nov", 11); ("dec", 12)].

Definition month_of_name (name : string) : option nat :=
  option_map snd
    (find (fun entry => String.eqb (fst entry) (Str.lower name)) month_names).

Definition parse (s : string) : outcome Date.datetime :=
  match tokens "" s with
  | [m; d; y] =>
      match month_of_name m, Str.number d, Str.number y with
      | Some month, Some day, Some year =>
          if Nat.leb 1 day && Nat.leb day 31 && Nat.leb 1 year
             && Nat.eqb (year / 100 / 100) 0
          then Ret (Date.mk_datetime year month day)
          else Raise ValueError
      | _, _, _ => Raise ValueError
      end
  | _ => Raise ValueError
  end.

End MonthDayYear.

(* ================================================================== *)
(** ** Vocabulary of the statements *)

(** The rows of each kind among staged objects, in staging order. *)
Definition staged_data (es : list Store.entity) : list FilingData.t :=
  flat_map (fun e => match e with Store.Data r => [r] | _ => [] end) es.

Definition staged_filings (es : list Store.entity) : list FilingInfo.t :=
  flat_map (fun e => match e with Store.Filing r => [r] | _ => [] end) es.

Definition staged_companies (es : list Store.entity) : list CompanyInfo.t :=
  flat_map (fun e => match e with Store.Company r => [r] | _ => [] end) es.

Definition staged_sic (es : list Store.entity) : list SicInfo.t :=
  flat_map (fun e => match e with Store.Sic r => [r] | _ => [] end) es.

(** The state [Session.rollback] leaves. *)
Definition rolled_back (self : EdgarDatabase) : EdgarDatabase :=
  mk_db (db_eng self) (db_eng self) [] (queries self) (stdout self).

(** The state a successful flush leaves, [st] being the rows written. *)
Definition flushed (self : EdgarDatabase) (st : Store.t) : EdgarDatabase :=
  mk_db (db_eng self) st [] (queries self) (stdout self).

(** The state after a column's records were staged and written as [st],
    the filing marked and everything committed. *)
Definition column_committed (self : EdgarDatabase) (accession : string)
  (st : Store.t) : EdgarDatabase :=
  let st' := Store.update_parsed_data accession (Some true) st in
  mk_db st' st' [] (queries self ++ [SelectFilingByAccession accession])
        (stdout self).

(** The record the loop builds from a data row. *)
Definition record_of (accession filing_type : string) (column_num : nat)
  (period : string) (row : list cell) : FilingData.t :=
  FilingData.mk accession (nth 0 row CNone) filing_type
                (nth column_num row CNone) period.

(** The trailing cell of a row is truthy. *)
Definition has_value (row : list cell) : bool := truthy (last row CNone).

Section Header.
Variable parse : string -> outcome Date.datetime.
Variable data : Np.ndarray.

(** What the header of a column yields. *)
Inductive header_result : Type :=
| HeaderPeriod (period : string)
| HeaderFalsy
| HeaderCaught
| HeaderEscapes (e : exn).

Definition header_of (column_num : nat) : header_result :=
  match Np.getitem2 data 0 column_num with
  | Raise e => if parse_errors e then HeaderCaught else HeaderEscapes e
  | Ret header =>
      match prep_date header with
      | None => HeaderFalsy
      | Some prepped_date =>
          if String.eqb prepped_date "" then HeaderFalsy
          else match parse prepped_date with
               | Ret d => HeaderPeriod (Date.strftime_Ymd d)
               | Raise e => if parse_errors e then HeaderCaught else HeaderEscapes e
               end
      end
  end.

End Header.

Section Reaches.
Variable parse : string -> outcome Date.datetime.
Variables (filing : FilingInfo.t * CompanyInfo.t) (data : Np.ndarray)
          (filing_type : string).

(** [reaches self cs self']: starting in [self], the loop body ran to its
    end (through the commit) for each column of [cs] and left [self']. *)
Inductive reaches : EdgarDatabase -> list nat -> EdgarDatabase -> Prop :=
| reaches_nil : forall self, reaches self [] self
| reaches_cons : forall self c self1 cs self2,
    column_step parse filing data filing_type c self = (self1, Ret (Next tt)) ->
    reaches self1 cs self2 ->
    reaches self (c :: cs) self2.

End Reaches.

(** The filing row [f] is already in the session: committed, written in
    the open transaction, or staged. *)
Definition in_session (self : EdgarDatabase) (f : FilingInfo.t) : Prop :=
  In f (Store.filings (db_eng self)) \/
  In f (Store.filings (session_rows self)) \/
  In (Store.Filing f) (session_new self).

Section FlagStatements.
Variable parse : string -> outcome Date.datetime.
Variables (filing : FilingInfo.t * CompanyInfo.t) (data : Np.ndarray)
          (filing_type : string).

(** The flag statement as worded: every filing row the call leaves
    committed with a true flag was in the session as it is before the call,
    or its accession gained a data point in the call. *)
Definition flag_only_with_new_data (self : EdgarDatabase) : Prop :=
  let self' := fst (set_filing_data parse filing data filing_type self) in
  forall f,
    In f (Store.filings (db_eng self')) ->
    FilingInfo.parsed_data f = Some true ->
    in_session self f \/
    exists d,
      In d (Store.filing_data (db_eng self')) /\
      ~ In d (Store.filing_data (db_eng self)) /\
      FilingData.filing_accession d = FilingInfo.filing_accession f.

(** The batch of a data column among [cs] is committed in [self']: the
    column's header gave a period, its records were built, and all of them
    are among the committed data points. The batch may be empty. *)
Definition batch_committed (cs : list nat) (self' : EdgarDatabase) : Prop :=
  exists column_num period records,
    In column_num cs /\
    header_of parse data column_num = HeaderPeriod period /\
    rows_to_insert (FilingInfo.filing_accession (fst filing)) filing_type
                   column_num period (Np.below_header data) = Ret records /\
    incl records (Store.filing_data (db_eng self')).

End FlagStatements.

(** The four lookups of distinct cik values, with the term they are given. *)
Inductive lookup : Type :=
| ByState (state_name : string)
| BySic (sic_code : string)
| ByTicker (company_ticker : string)
| ByName (company_name : string).

Definition run_lookup (l : lookup) : M (list string) :=
  match l with
  | ByState t => select_ciks_by_state t
  | BySic t => select_ciks_by_sic t
  | ByTicker t => select_ciks_by_ticker t
  | ByName t => select_ciks_by_name t
  end.

Definition lookup_column (l : lookup) : Col.company :=
  match l with
  | ByState _ => Col.company_state
  | BySic _ => Col.company_sic
  | ByTicker _ => Col.company_ticker
  | ByName _ => Col.company_name
  end.

Definition lookup_term (l : lookup) : string :=
  match l with
  | ByState t | BySic t | ByTicker t | ByName t => t
  end.

(** The pattern the lookup hands to the query. *)
Definition lookup_pattern (l : lookup) : string :=
  match l with
  | ByName t => "%" ++ t ++ "%"
  | _ => lookup_term l
  end.

(** [needle in hay] *)
Fixpoint contains (needle hay : string) : bool :=
  String.prefix needle hay ||
  match hay with
  | EmptyString => false
  | String _ hay' => contains needle hay'
  end.

(** Matching as the description words it: the column equal to the term for
    state, industry code and ticker; the name containing the term, letter
    case ignored, for the name. *)
Definition matches_as_worded (l : lookup) (c : CompanyInfo.t) : bool :=
  match Col.company_value (lookup_column l) c with
  | None => false
  | Some v =>
      match l with
      | ByName t => contains (Str.lower t) (Str.lower v)
      | _ => String.eqb v (lookup_term l)
      end
  end.

(** Matching with letter case ignored throughout: the whole column for
    state, industry code and ticker, a part of it for the name. *)
Definition matches_folded (l : lookup) (c : CompanyInfo.t) : bool :=
  match Col.company_value (lookup_column l) c with
  | None => false
  | Some v =>
      match l with
      | ByName t => contains (Str.lower t) (Str.lower v)
      | _ => String.eqb (Str.lower (lookup_term l)) (Str.lower v)
      end
  end.

(** The lookup statement as worded: what a lookup returns are the cik
    values of the companies matching as worded. *)
Definition lookup_returns_worded (l : lookup) (self : EdgarDatabase) : Prop :=
  forall self' ciks,
    run_lookup l self = (self', Ret ciks) ->
    ciks = map CompanyInfo.company_cik
               (filter (matches_as_worded l) (Store.companies (session_rows self'))).

(** The state a lookup leaves when its query could be sent. *)
Definition looked_up (self : EdgarDatabase) (st : Store.t) (l : lookup)
  : EdgarDatabase :=
  mk_db (db_eng self) st []
        (queries self ++ [SelectCiksLike (lookup_column l) (lookup_pattern l)])
        (stdout self).

(** The same, with the message of the empty result printed. *)
Definition looked_up_nothing (self : EdgarDatabase) (st : Store.t) (l : lookup)
  : EdgarDatabase :=
  mk_db (db_eng self) st []
        (queries self ++ [SelectCiksLike (lookup_column l) (lookup_pattern l)])
        (stdout self ++ [no_results_found]).

(** The value an object has in a column of its own table. *)
Definition entity_value (e : Store.entity) (col : Col.joined) : option string :=
  match e, col with
  | Store.Company r, Col.OfCompany c => Col.company_value c r
  | Store.Filing r, Col.OfFiling c => Col.filing_value c r
  | _, _ => None
  end.

(** The objects [insert_objects] stages for its argument. *)
Definition objects_of (objects : Store.entity + list Store.entity)
  : list Store.entity :=
  match objects with inl o => [o] | inr l => l end.

(** No two filings of the store have the same accession. *)
Definition accessions_unique (st : Store.t) : Prop :=
  NoDup (map FilingInfo.filing_accession (Store.filings st)).

(** Nothing is staged and the open transaction holds no change. *)
Definition session_clean (self : EdgarDatabase) : Prop :=
  session_new self = [] /\ session_rows self = db_eng self.

(** The state [insert_objects] leaves: the objects are staged behind what
    was staged before, nothing else changes. *)
Definition staged_with (self : EdgarDatabase) (objects : list Store.entity)
  : EdgarDatabase :=
  mk_db (db_eng self) (session_rows self) (session_new self ++ objects)
        (queries self) (stdout self).

(** The state a commit leaves, [st] being the rows written. *)
Definition committed_as (self : EdgarDatabase) (st : Store.t) : EdgarDatabase :=
  mk_db st st [] (queries self) (stdout self).

(** The store with [excel_path] set to [v] on the filings that [chosen]
    picks. *)
Definition with_paths (chosen : FilingInfo.t -> bool) (v : option string)
  (st : Store.t) : Store.t :=
  Store.mk (Store.sic st) (Store.companies st)
           (map (fun f => if chosen f then FilingInfo.with_excel_path v f else f)
                (Store.filings st))
           (Store.filing_data st).

(** The filing has the given URL. *)
Definition has_url (filing_url : string) (f : FilingInfo.t) : bool :=
  Store.equals (FilingInfo.filing_url f) filing_url.

(** The accession of the filing is one of [accessions]. *)
Definition accession_among (accessions : list string) (f : FilingInfo.t) : bool :=
  existsb (String.eqb (FilingInfo.filing_accession f)) accessions.

(** The company has a name. *)
Definition has_name (c : CompanyInfo.t) : bool :=
  match CompanyInfo.company_name c with
  | Some _ => true
  | None => false
  end.

(* ================================================================== *)
(** ** Sample data *)

Module Sample.

Definition acme : CompanyInfo.t :=
  CompanyInfo.mk "0001" (Some "Acme") None None None None.

Definition globex : CompanyInfo.t :=
  CompanyInfo.mk "0002" (Some "Globex Corporation") (Some "GLBX") (Some "3570")
                 (Some "CA") None.

Definition filing_A1 : FilingInfo.t :=
  FilingInfo.mk (Some "0001") "A1" None None None None None None None None.

Definition filing_B2 : FilingInfo.t :=
  FilingInfo.mk (Some "0002") "B2" (Some "10-K") None None
                (Some "https://example.org/b2") None None None None.

(** A new database and a session with nothing staged. *)
Definition fresh : EdgarDatabase := mk_db Store.empty Store.empty [] [] [].

(** Acme and its filing A1, committed. *)
Definition acme_store : Store.t := Store.mk [] [acme] [filing_A1] [].

Definition with_acme : EdgarDatabase := mk_db acme_store acme_store [] [] [].

(** Acme and Globex, committed. *)
Definition two_companies : Store.t := Store.mk [] [acme; globex] [filing_A1] [].

Definition with_two_companies : EdgarDatabase :=
  mk_db two_companies two_companies [] [] [].

(** Acme and Globex with a filing each, committed. *)
Definition two_filings : Store.t :=
  Store.mk [] [acme; globex] [filing_A1; filing_B2] [].

Definition with_two_filings : EdgarDatabase :=
  mk_db two_filings two_filings [] [] [].

(** Globex entered before Acme. *)
Definition globex_first : Store.t := Store.mk [] [globex; acme] [] [].

Definition with_globex_first : EdgarDatabase :=
  mk_db globex_first globex_first [] [] [].

(** Two periods; the only row has no value in the first. *)
Definition blank_first_period : Np.ndarray :=
  Np.mk 3 [[CStr "Item"; CStr "Dec. 31, 2020"; CStr "Dec. 31, 2019"];
           [CStr "Costs"; CStr ""; CStr "70"]].

(** The same period under two headers. *)
Definition same_period_twice : Np.ndarray :=
  Np.mk 3 [[CStr "Item"; CStr "Dec. 31, 2020"; CStr "USD ($) Dec. 31, 2020"];
           [CStr "Revenue"; CStr "100"; CStr "100"]].

(** One reporting period, one term. *)
Definition one_period : Np.ndarray :=
  Np.mk 2 [[CStr "Item"; CStr "USD ($) Dec. 31, 2020"];
           [CStr "Revenue"; CStr "100"]].

(** A header row and nothing below it. *)
Definition header_only : Np.ndarray :=
  Np.mk 2 [[CStr "Item"; CStr "USD ($) Dec. 31, 2020"]].

(** The header of the second period is not a date. *)
Definition second_header_bad : Np.ndarray :=
  Np.mk 3 [[CStr "Item"; CStr "Dec. 31, 2020"; CStr "Total"];
           [CStr "Revenue"; CStr "100"; CStr "200"]].

(** Only the column of term names. *)
Definition only_terms : Np.ndarray :=
  Np.mk 1 [[CStr "Item"]; [CStr "Revenue"]; [CStr "Costs"]].

(** The same term on two rows: two records with one key. *)
Definition repeated_term : Np.ndarray :=
  Np.mk 2 [[CStr "Item"; CStr "Dec. 31, 2020"];
           [CStr "Revenue"; CStr "100"];
           [CStr "Revenue"; CStr "120"]].

(** Two periods; the first row has no value in the last period. *)
Definition with_blanks : Np.ndarray :=
  Np.mk 3 [[CStr "Item"; CStr "Dec. 31, 2020"; CStr "Dec. 31, 2019"];
           [CStr "Revenue"; CStr "100"; CStr ""];
           [CStr "Costs"; CStr "60"; CStr "70"]].

(** A thousand accession numbers, the first and the last the same. *)
Definition accessions_repeating : list string :=
  "A1" :: repeat "B2" 998 ++ ["A1"].

(** Nine hundred and ninety-nine accession numbers. *)
Definition accessions_999 : list string := "A1" :: repeat "B2" 998.

(** The scenario: insert the company, insert the filing, look the filing up
    and ingest the spreadsheet. *)
Definition end_to_end (parse : string -> outcome Date.datetime)
  (filing_type : string) : M bool :=
  insert_objects (inl (Store.Company acme)) ;;
  insert_objects (inl (Store.Filing filing_A1)) ;;
  found <- select_filings_by_accessions ["A1"] ;;
  match found with
  | filing :: _ => set_filing_data parse filing one_period filing_type
  | [] => ret false
  end.

End Sample.

(* ================================================================== *)
(** * Properties *)

(** ** The store only grows *)

(** An INSERT that went through: the key was not in the table, and the
    row is at the end of it. *)
Ltac key_is_new :=
  destruct (existsb _ _); [discriminate |];
  let H := fresh "H" in
  intros H; injection H as <-; simpl; rewrite !app_nil_r; auto.

Lemma insert_tables (st st' : Store.t) (e : Store.entity) :
  Store.insert st e = Some st' ->
  Store.sic st' = Store.sic st ++ staged_sic [e] /\
  Store.companies st' = Store.companies st ++ staged_companies [e] /\
  Store.filings st' = Store.filings st ++ staged_filings [e] /\
  Store.filing_data st' = Store.filing_data st ++ staged_data [e].
Proof.
  destruct e as [r | r | r | r]; simpl.
  - key_is_new.
  - key_is_new.
  - key_is_new.
  - destruct (FilingData.filing_term r); [discriminate | |]; key_is_new.
Qed.

Lemma insert_all_tables (es : list Store.entity) :
  forall st st',
    Store.insert_all st es = Some st' ->
    Store.sic st' = Store.sic st ++ staged_sic es /\
    Store.companies st' = Store.companies st ++ staged_companies es /\
    Store.filings st' = Store.filings st ++ staged_filings es /\
    Store.filing_data st' = Store.filing_data st ++ staged_data es.
Proof.
  induction es as [| e es IH]; intros st st'; simpl.
  - intros H; injection H as <-. rewrite !app_nil_r; auto.
  - destruct (Store.converts e); [| discriminate].
    destruct (Store.insert st e) as [st1 |] eqn:E1; [| discriminate].
    intros H. apply IH in H. apply insert_tables in E1.
    destruct H as (Hs & Hc & Hf & Hd), E1 as (Es & Ec & Ef & Ed).
    unfold staged_sic, staged_companies, staged_filings, staged_data in *.
    simpl in *. rewrite !app_nil_r in *.
    rewrite Hs, Hc, Hf, Hd, Es, Ec, Ef, Ed, <- !app_assoc. auto.
Qed.

Lemma staged_data_app (a b : list Store.entity) :
  staged_data (a ++ b) = staged_data a ++ staged_data b.
Proof. unfold staged_data. now rewrite flat_map_app. Qed.

Lemma staged_filings_app (a b : list Store.entity) :
  staged_filings (a ++ b) = staged_filings a ++ staged_filings b.
Proof. unfold staged_filings. now rewrite flat_map_app. Qed.

Lemma staged_data_records (records : list FilingData.t) :
  staged_data (map Store.Data records) = records.
Proof. induction records; simpl; congruence. Qed.

Lemma staged_filings_records (records : list FilingData.t) :
  staged_filings (map Store.Data records) = [].
Proof. induction records; simpl; auto. Qed.

Create Rewrite HintDb staged.
#[local] Hint Rewrite staged_data_app staged_data_records
  staged_filings_app staged_filings_records : staged.

Lemma In_staged_filings (f : FilingInfo.t) (es : list Store.entity) :
  In f (staged_filings es) <-> In (Store.Filing f) es.
Proof.
  unfold staged_filings. rewrite in_flat_map. split.
  - intros (e & He & Hf). destruct e; simpl in Hf; try tauto.
    destruct Hf as [-> | []]. exact He.
  - intros H. exists (Store.Filing f). simpl. auto.
Qed.

(** ** Marking a filing *)

Lemma update_parsed_data_twice (accession : string) (v : option bool) (st : Store.t) :
  Store.update_parsed_data accession v (Store.update_parsed_data accession v st)
  = Store.update_parsed_data accession v st.
Proof.
  unfold Store.update_parsed_data; simpl. f_equal.
  rewrite map_map. apply map_ext. intros f.
  destruct (String.eqb (FilingInfo.filing_accession f) accession) eqn:E; simpl.
  - now rewrite E.
  - now rewrite E.
Qed.

Lemma update_parsed_data_absent (accession : string) (v : option bool) (st : Store.t) :
  filter (fun f => String.eqb (FilingInfo.filing_accession f) accession)
         (Store.filings st) = [] ->
  Store.update_parsed_data accession v st = st.
Proof.
  destruct st as [s c fs d]; unfold Store.update_parsed_data; simpl.
  intros H. f_equal.
  induction fs as [| f fs IH]; simpl in *; [reflexivity |].
  destruct (String.eqb (FilingInfo.filing_accession f) accession);
    [discriminate | now rewrite IH].
Qed.

Lemma update_parsed_data_data (accession : string) (v : option bool) (st : Store.t) :
  Store.filing_data (Store.update_parsed_data accession v st) = Store.filing_data st.
Proof. reflexivity. Qed.

(** The loop over the loaded filings marks exactly the rows of that key. *)
Lemma mark_loaded (accession : string) (cs : list FilingInfo.t) :
  Forall (fun c => FilingInfo.filing_accession c = accession) cs ->
  forall self,
    for_each cs (fun c => Session.set_parsed_data c (Some true)) self
    = (mk_db (db_eng self)
             (match cs with
              | [] => session_rows self
              | _ => Store.update_parsed_data accession (Some true)
                       (session_rows self)
              end)
             (session_new self) (queries self) (stdout self), Ret tt).
Proof.
  induction 1 as [| c cs Hc Hcs IH]; intros self.
  - destruct self; reflexivity.
  - simpl. unfold bind at 1. unfold Session.set_parsed_data at 1.
    rewrite IH; simpl. rewrite Hc.
    destruct cs; [reflexivity |].
    now rewrite update_parsed_data_twice.
Qed.

(** ** The session operations, as equations *)

Lemma flush_written (self : EdgarDatabase) (st : Store.t) :
  Store.insert_all (session_rows self) (session_new self) = Some st ->
  Session.flush self = (flushed self st, Ret tt).
Proof. unfold Session.flush. now intros ->. Qed.

Lemma flush_violation (self : EdgarDatabase) :
  Store.insert_all (session_rows self) (session_new self) = None ->
  Session.flush self
  = (self, Raise (Store.refusal (session_rows self) (session_new self))).
Proof. unfold Session.flush. now intros ->. Qed.

(** A flush fails with one of the two errors the ingestion catches. *)
Lemma refusal_write_error (st : Store.t) (es : list Store.entity) :
  write_errors (Store.refusal st es) = true.
Proof.
  unfold Store.refusal.
  destruct (Store.accept_all st _); [| reflexivity].
  destruct (negb _); [reflexivity |].
  destruct (Store.accept_all _ _); [| reflexivity].
  destruct (skipn _ _) as [| e l]; [reflexivity |].
  destruct (Store.converts e); reflexivity.
Qed.

Lemma filter_accession_all (accession : string) (fs : list FilingInfo.t) :
  Forall (fun c => FilingInfo.filing_accession c = accession)
         (filter (fun f => String.eqb (FilingInfo.filing_accession f) accession) fs).
Proof.
  apply Forall_forall. intros f Hf. apply filter_In in Hf.
  now apply String.eqb_eq.
Qed.

(** Staging a column's records and marking the filing: either the write
    goes through, or the call rolls back and reports failure. *)
Lemma write_column_spec (accession : string) (records : list FilingData.t)
  (self : EdgarDatabase) :
  write_column accession records self =
  match Store.insert_all (session_rows self)
                         (session_new self ++ map Store.Data records) with
  | Some st =>
      (mk_db (db_eng self)
             (Store.update_parsed_data accession (Some true) st) []
             (queries self ++ [SelectFilingByAccession accession])
             (stdout self), Ret (Next tt))
  | None => (rolled_back self, Ret (Return false))
  end.
Proof.
  unfold write_column, try_except, Session.query_filing_by_accession.
  unfold bind at 1. unfold Session.add_all at 1.
  unfold bind at 1. unfold bind at 1. unfold Session.flush at 1. simpl.
  destruct (Store.insert_all _ _) as [st |] eqn:E; simpl;
    [| now rewrite refusal_write_error].
  unfold bind, Session.sent, Session.rows, ret; simpl.
  rewrite (mark_loaded accession) by apply filter_accession_all. simpl.
  destruct (filter _ (Store.filings st)) eqn:F; [| reflexivity].
  now rewrite update_parsed_data_absent.
Qed.

Lemma commit_after_write (self : EdgarDatabase) :
  session_new self = [] ->
  Session.commit self =
  (mk_db (session_rows self) (session_rows self) [] (queries self) (stdout self),
   Ret tt).
Proof.
  intros H. unfold Session.commit, bind, Session.flush. rewrite H. simpl.
  reflexivity.
Qed.

Section StepFacts.
Variable parse : string -> outcome Date.datetime.
Variables (filing : FilingInfo.t * CompanyInfo.t) (data : Np.ndarray)
          (filing_type : string).

Local Abbreviation accession := (FilingInfo.filing_accession (fst filing)).

Lemma column_period_spec (column_num : nat) (self : EdgarDatabase) :
  column_period parse data column_num self =
  match header_of parse data column_num with
  | HeaderPeriod period => (self, Ret (Next period))
  | HeaderFalsy => (self, Ret (Return false))
  | HeaderCaught => (rolled_back self, Ret (Return false))
  | HeaderEscapes e => (self, Raise e)
  end.
Proof.
  unfold column_period, header_of, try_except, bind, lift.
  destruct (Np.getitem2 data 0 column_num) as [header | e]; simpl.
  - destruct (prep_date header) as [p |]; simpl; [| reflexivity].
    destruct (String.eqb p ""); simpl; [reflexivity |].
    destruct (parse p) as [d | e]; simpl; [reflexivity |].
    destruct (parse_errors e); reflexivity.
  - destruct (parse_errors e); reflexivity.
Qed.

(** The body of the loop, case by case. *)
Lemma column_step_spec (column_num : nat) (self : EdgarDatabase) :
  column_step parse filing data filing_type column_num self =
  match header_of parse data column_num with
  | HeaderPeriod period =>
      match rows_to_insert accession filing_type column_num period
                           (Np.below_header data) with
      | Ret records =>
          match Store.insert_all (session_rows self)
                                 (session_new self ++ map Store.Data records) with
          | Some st => (column_committed self accession st, Ret (Next tt))
          | None => (rolled_back self, Ret (Return false))
          end
      | Raise e => (self, Raise e)
      end
  | HeaderFalsy => (self, Ret (Return false))
  | HeaderCaught => (rolled_back self, Ret (Return false))
  | HeaderEscapes e => (self, Raise e)
  end.
Proof.
  unfold column_step. unfold bind at 1. rewrite column_period_spec.
  destruct (header_of parse data column_num) as [period | | | e]; try reflexivity.
  unfold bind at 1. unfold lift at 1.
  destruct (rows_to_insert _ _ _ _ _) as [records | e]; [| reflexivity].
  unfold bind at 1. rewrite write_column_spec.
  destruct (Store.insert_all _ _) as [st |]; [| reflexivity].
  unfold bind at 1. rewrite commit_after_write by reflexivity.
  reflexivity.
Qed.

End StepFacts.

(** ** The loop over the columns *)

Lemma for_in_cons {X R : Type} (x : X) (xs : list X)
  (body : X -> M (flow unit R)) (default : R) (self : EdgarDatabase) :
  for_in (x :: xs) body default self =
  match body x self with
  | (self1, Ret (Next _)) => for_in xs body default self1
  | (self1, Ret (Return r)) => (self1, Ret r)
  | (self1, Raise e) => (self1, Raise e)
  end.
Proof.
  simpl. unfold bind.
  destruct (body x self) as [self1 [[u | r] | e]]; reflexivity.
Qed.

Section LoopFacts.
Variable parse : string -> outcome Date.datetime.
Variables (filing : FilingInfo.t * CompanyInfo.t) (data : Np.ndarray)
          (filing_type : string).

Local Abbreviation accession := (FilingInfo.filing_accession (fst filing)).
Local Abbreviation step := (column_step parse filing data filing_type).

(** The three ways the loop body can end. *)
Lemma column_step_inv (column_num : nat) (self self1 : EdgarDatabase)
  (o : outcome (flow unit bool)) :
  step column_num self = (self1, o) ->
  (self1 = self /\ o <> Ret (Next tt)) \/
  (self1 = rolled_back self /\ o = Ret (Return false)) \/
  (o = Ret (Next tt) /\
   exists period records st,
     header_of parse data column_num = HeaderPeriod period /\
     rows_to_insert accession filing_type column_num period
                    (Np.below_header data) = Ret records /\
     Store.insert_all (session_rows self)
                      (session_new self ++ map Store.Data records) = Some st /\
     self1 = column_committed self accession st).
Proof.
  rewrite column_step_spec.
  destruct (header_of parse data column_num) as [period | | | e] eqn:Hh.
  - destruct (rows_to_insert _ _ _ _ _) as [records | e] eqn:Hr.
    + destruct (Store.insert_all _ _) as [st |] eqn:E.
      * intros H; injection H as <- <-. right; right. split; [reflexivity |].
        now exists period, records, st.
      * intros H; injection H as <- <-. right; left. auto.
    + intros H; injection H as <- <-. left. split; [reflexivity | discriminate].
  - intros H; injection H as <- <-. left. split; [reflexivity | discriminate].
  - intros H; injection H as <- <-. right; left. auto.
  - intros H; injection H as <- <-. left. split; [reflexivity | discriminate].
Qed.

(** Columns that ran to their commit are behind the loop. *)
Lemma for_in_reaches (pre post : list nat) (self self1 : EdgarDatabase) :
  reaches parse filing data filing_type self pre self1 ->
  for_in (pre ++ post) step true self = for_in post step true self1.
Proof.
  induction 1 as [| self c s1 cs s2 Hstep _ IH]; [reflexivity |].
  rewrite <- app_comm_cons, for_in_cons. rewrite Hstep.
  exact IH.
Qed.

(** The committed data points are never fewer after the loop. *)
Lemma committed_data_kept (cs : list nat) :
  forall self self' r,
    for_in cs step true self = (self', r) ->
    incl (Store.filing_data (db_eng self)) (Store.filing_data (session_rows self)) ->
    incl (Store.filing_data (db_eng self)) (Store.filing_data (db_eng self')).
Proof.
  induction cs as [| c cs IH]; intros self self' r.
  - simpl. unfold ret. intros H _; injection H as <- _. apply incl_refl.
  - rewrite for_in_cons.
    destruct (step c self) as [s1 o] eqn:Hstep.
    destruct (column_step_inv _ _ _ _ Hstep)
      as [[-> Ho] | [[-> ->] | [-> (period & records & st & _ & _ & Hst & ->)]]].
    + destruct o as [[[] | b] | e]; [now elim Ho | |];
        intros H _; injection H as <- _; apply incl_refl.
    + intros H _; injection H as <- _. apply incl_refl.
    + intros H Hincl. apply IH in H; [| apply incl_refl].
      simpl in H. eapply incl_tran; [| exact H].
      apply insert_all_tables in Hst. destruct Hst as (_ & _ & _ & ->).
      eapply incl_tran; [exact Hincl |]. apply incl_appl, incl_refl.
Qed.

End LoopFacts.

(** ** Ingestion *)

Lemma getitem_nth (row : list cell) (i : nat) (v : cell) :
  getitem row i = Ret v -> nth i row CNone = v.
Proof.
  unfold getitem. destruct (nth_error row i) eqn:E; [| discriminate].
  intros H; injection H as <-. now apply nth_error_nth.
Qed.

Lemma getitem_last_last (row : list cell) (v : cell) :
  getitem_last row = Ret v -> last row CNone = v.
Proof.
  induction row as [| a row IH]; [discriminate |].
  destruct row as [| b row]; [now intros H; injection H as <- |].
  exact IH.
Qed.

(** The records of a column are the rows with a truthy trailing cell, in
    order, each turned into a record. *)
Lemma rows_to_insert_shape (accession filing_type : string) (column_num : nat)
  (period : string) (rows : list (list cell)) :
  forall records,
    rows_to_insert accession filing_type column_num period rows = Ret records ->
    records = map (record_of accession filing_type column_num period)
                  (filter has_value rows).
Proof.
  induction rows as [| row rows IH]; intros records; simpl.
  - now intros H; injection H as <-.
  - destruct (getitem_last row) as [v |] eqn:El; [| discriminate].
    apply getitem_last_last in El. unfold has_value at 1. rewrite El.
    destruct (truthy v); simpl; [| apply IH].
    destruct (getitem row 0) as [term |] eqn:E0;
      destruct (getitem row column_num) as [value |] eqn:Ec; try discriminate.
    destruct (rows_to_insert _ _ _ _ rows) as [more |]; [| discriminate].
    intros H; injection H as <-. f_equal; [| now apply IH].
    unfold record_of. now rewrite (getitem_nth _ _ _ E0), (getitem_nth _ _ _ Ec).
Qed.

(** On a rectangular array the records of a data column are always built. *)
Lemma rows_to_insert_total (accession filing_type : string) (column_num : nat)
  (period : string) (width : nat) (rows : list (list cell)) :
  column_num < width ->
  forallb (fun row => Nat.eqb (List.length row) width) rows = true ->
  rows_to_insert accession filing_type column_num period rows =
  Ret (map (record_of accession filing_type column_num period)
           (filter has_value rows)).
Proof.
  intros Hc. induction rows as [| row rows IH]; simpl; [reflexivity |].
  intros H. apply andb_prop in H. destruct H as [Hrow Hrows].
  apply Nat.eqb_eq in Hrow. specialize (IH Hrows).
  assert (exists v, getitem_last row = Ret v) as [v El].
  { clear - Hrow Hc. assert (row <> []) as Hne by (intros ->; simpl in Hrow; lia).
    clear Hrow. induction row as [| a row IHr]; [now elim Hne |].
    destruct row as [| b row]; [now exists a |].
    apply IHr. discriminate. }
  rewrite El. pose proof (getitem_last_last _ _ El) as Hl.
  unfold has_value at 1. rewrite Hl.
  destruct (truthy v); simpl; [| exact IH].
  assert (forall i, i < width -> getitem row i = Ret (nth i row CNone)) as Hget.
  { intros i Hi. unfold getitem.
    rewrite (nth_error_nth' row CNone) by lia. reflexivity. }
  rewrite (Hget 0) by lia. rewrite (Hget column_num) by lia. rewrite IH.
  reflexivity.
Qed.

(** C10. A spreadsheet array with exactly one column (the term names, no
    data column): [set_filing_data] returns true and leaves the object as
    it was; no record is built or staged, no query is sent, and the filing's
    parsed-data flag is untouched. *)
Theorem set_filing_data_single_column
  (parse : string -> outcome Date.datetime)
  (filing : FilingInfo.t * CompanyInfo.t) (data : Np.ndarray)
  (filing_type : string) (self : EdgarDatabase) :
  Np.shape1 data = 1 ->
  set_filing_data parse filing data filing_type self = (self, Ret true).
Proof.
  intros H. unfold set_filing_data. rewrite H. reflexivity.
Qed.

Lemma set_filing_data_single_column_witness :
  Np.shape1 Sample.only_terms = 1 /\
  set_filing_data MonthDayYear.parse (Sample.filing_A1, Sample.acme)
                  Sample.only_terms "10-K" Sample.with_acme
  = (Sample.with_acme, Ret true).
Proof.
  split; [reflexivity |].
  apply set_filing_data_single_column. reflexivity.
Defined.

Lemma forallb_below_header (f : list cell -> bool) (data : Np.ndarray) :
  forallb f (Np.rows data) = true -> forallb f (Np.below_header data) = true.
Proof.
  unfold Np.below_header. destruct (Np.rows data) as [| header rows]; simpl; auto.
  intros H. apply andb_prop in H. tauto.
Qed.

(** A data column of a rectangular array whose header is a date and whose
    records can be written is processed to its commit. *)
Lemma column_step_commits
  (parse : string -> outcome Date.datetime)
  (filing : FilingInfo.t * CompanyInfo.t) (data : Np.ndarray)
  (filing_type : string) (column_num : nat) (self : EdgarDatabase)
  (period : string) (st : Store.t) :
  Np.well_formed data = true ->
  column_num < Np.shape1 data ->
  header_of parse data column_num = HeaderPeriod period ->
  Store.insert_all
    (session_rows self)
    (session_new self
     ++ map Store.Data
          (map (record_of (FilingInfo.filing_accession (fst filing)) filing_type
                          column_num period)
               (filter has_value (Np.below_header data)))) = Some st ->
  column_step parse filing data filing_type column_num self
  = (column_committed self (FilingInfo.filing_accession (fst filing)) st,
     Ret (Next tt)).
Proof.
  intros Hwf Hc Hh Hst. rewrite column_step_spec, Hh.
  rewrite (rows_to_insert_total _ _ _ _ (Np.shape1 data)); auto.
  - now rewrite Hst.
  - now apply forallb_below_header.
Qed.

(** On a rectangular array the test that keeps or drops a row reads the
    row's last cell, whatever the column: a row is dropped when that cell is
    [None], the empty text or zero, and kept otherwise, with the cell of
    the column as its value, blank or not. *)
Lemma rows_to_insert_by_last_cell (accession filing_type : string)
  (column_num : nat) (period : string) (width : nat) (rows : list (list cell)) :
  column_num < width ->
  forallb (fun row => Nat.eqb (List.length row) width) rows = true ->
  rows_to_insert accession filing_type column_num period rows =
  Ret (flat_map
         (fun row =>
            let record :=
              FilingData.mk accession (nth 0 row CNone) filing_type
                            (nth column_num row CNone) period in
            match last row CNone with
            | CNone => []
            | CStr s => if String.eqb s "" then [] else [record]
            | CNum z => if Z.eqb z 0 then [] else [record]
            end) rows).
Proof.
  intros Hc Hw. rewrite (rows_to_insert_total _ _ _ _ width) by assumption.
  f_equal. clear.
  match goal with |- _ = flat_map ?f _ => set (pick := f) end.
  induction rows as [| row rows IH]; [reflexivity |].
  change (flat_map pick (row :: rows)) with (pick row ++ flat_map pick rows).
  rewrite <- IH. cbn [filter]. unfold has_value at 1, truthy, pick.
  destruct (last row CNone) as [| s | z]; [reflexivity | |].
  - now destruct (String.eqb s "").
  - now destruct (Z.eqb z 0).
Qed.

(** A header that does not parse: rollback to the last commit, [False]. *)
Lemma set_filing_data_header_caught
  (parse : string -> outcome Date.datetime)
  (filing : FilingInfo.t * CompanyInfo.t) (data : Np.ndarray)
  (filing_type : string) (self self1 : EdgarDatabase)
  (pre post : list nat) (column_num : nat) :
  range 1 (Np.shape1 data) = pre ++ column_num :: post ->
  reaches parse filing data filing_type self pre self1 ->
  header_of parse data column_num = HeaderCaught ->
  set_filing_data parse filing data filing_type self
  = (rolled_back self1, Ret false).
Proof.
  intros Hrange Hpre Hh. unfold set_filing_data. rewrite Hrange.
  rewrite (for_in_reaches _ _ _ _ _ _ _ _ Hpre).
  rewrite for_in_cons, column_step_spec, Hh. reflexivity.
Qed.

(** C3. When the records built for a column cannot be written because a
    key is already present or a key cell is missing (or because a value
    does not convert to its column's type), the violation raised by the
    write is caught inside [set_filing_data]: the session is rolled back to
    the last commit and the call returns false; no exception reaches the
    caller. *)
Theorem write_violation_returns_false
  (parse : string -> outcome Date.datetime)
  (filing : FilingInfo.t * CompanyInfo.t) (data : Np.ndarray)
  (filing_type : string) (self self1 : EdgarDatabase)
  (pre post : list nat) (column_num : nat)
  (period : string) (records : list FilingData.t) :
  range 1 (Np.shape1 data) = pre ++ column_num :: post ->
  reaches parse filing data filing_type self pre self1 ->
  header_of parse data column_num = HeaderPeriod period ->
  rows_to_insert (FilingInfo.filing_accession (fst filing)) filing_type
                 column_num period (Np.below_header data) = Ret records ->
  Store.insert_all (session_rows self1)
                   (session_new self1 ++ map Store.Data records) = None ->
  set_filing_data parse filing data filing_type self
  = (rolled_back self1, Ret false).
Proof.
  intros Hrange Hpre Hh Hr Hw. unfold set_filing_data. rewrite Hrange.
  rewrite (for_in_reaches _ _ _ _ _ _ _ _ Hpre).
  rewrite for_in_cons, column_step_spec, Hh, Hr, Hw. reflexivity.
Qed.

Lemma write_violation_returns_false_witness :
  exists self1,
    reaches MonthDayYear.parse (Sample.filing_A1, Sample.acme)
            Sample.same_period_twice "10-K" Sample.with_acme [1] self1 /\
    Store.filing_data (db_eng self1) =
      [FilingData.mk "A1" (CStr "Revenue") "10-K" (CStr "100") "20201231"] /\
    set_filing_data MonthDayYear.parse (Sample.filing_A1, Sample.acme)
                    Sample.same_period_twice "10-K" Sample.with_acme
    = (rolled_back self1, Ret false).
Proof.
  pose (rows := [FilingData.mk "A1" (CStr "Revenue") "10-K" (CStr "100")
                               "20201231"]).
  pose (self1 := column_committed Sample.with_acme "A1"
                   (Store.mk [] [Sample.acme] [Sample.filing_A1] rows)).
  assert (reaches MonthDayYear.parse (Sample.filing_A1, Sample.acme)
                  Sample.same_period_twice "10-K" Sample.with_acme [1] self1)
    as Hreach.
  { apply reaches_cons with (self1 := self1); [| apply reaches_nil].
    vm_compute. reflexivity. }
  exists self1. split; [exact Hreach |]. split; [reflexivity |].
  apply (write_violation_returns_false MonthDayYear.parse
           (Sample.filing_A1, Sample.acme) Sample.same_period_twice "10-K"
           Sample.with_acme self1 [1] [] 2 "20201231" rows).
  - reflexivity.
  - exact Hreach.
  - vm_compute. reflexivity.
  - vm_compute. reflexivity.
  - vm_compute. reflexivity.
Defined.

Lemma header_of_text (parse : string -> outcome Date.datetime)
  (data : Np.ndarray) (column_num : nat) (text cleaned : string)
  (d : Date.datetime) :
  Np.getitem2 data 0 column_num = Ret (CStr text) ->
  Str.replace text "USD ($)" "" = cleaned ->
  String.eqb cleaned "" = false ->
  parse cleaned = Ret d ->
  header_of parse data column_num = HeaderPeriod (Date.strftime_Ymd d).
Proof.
  intros Hg Hc He Hp. unfold header_of. rewrite Hg. simpl prep_date.
  rewrite Hc, He, Hp. reflexivity.
Qed.

Lemma header_of_text_caught (parse : string -> outcome Date.datetime)
  (data : Np.ndarray) (column_num : nat) (text cleaned : string) (e : exn) :
  Np.getitem2 data 0 column_num = Ret (CStr text) ->
  Str.replace text "USD ($)" "" = cleaned ->
  String.eqb cleaned "" = false ->
  parse cleaned = Raise e ->
  parse_errors e = true ->
  header_of parse data column_num = HeaderCaught.
Proof.
  intros Hg Hc He Hp Hx. unfold header_of. rewrite Hg. simpl prep_date.
  rewrite Hc, He, Hp, Hx. reflexivity.
Qed.

(** C1, at a spreadsheet whose second period header is not a date. The
    call returns false and the session is rolled back, yet the data point
    of the first period, committed before the second header was read,
    stays in the database, and so does the filing's flag. *)
Theorem second_header_failure_keeps_first_column
  (parse : string -> outcome Date.datetime) (filing_type : string) :
  parse "Dec. 31, 2020" = Ret (Date.mk_datetime 2020 12 31) ->
  parse "Total" = Raise ValueError ->
  let after :=
    set_filing_data parse (Sample.filing_A1, Sample.acme)
                    Sample.second_header_bad filing_type Sample.with_acme in
  snd after = Ret false /\
  Store.filing_data (db_eng (fst after)) =
    [FilingData.mk "A1" (CStr "Revenue") filing_type (CStr "100") "20201231"] /\
  map FilingInfo.parsed_data (Store.filings (db_eng (fst after))) = [Some true] /\
  session_rows (fst after) = db_eng (fst after) /\
  session_new (fst after) = [].
Proof.
  intros Hdate Htotal after. subst after.
  assert (header_of parse Sample.second_header_bad 1 = HeaderPeriod "20201231") as H1.
  { now apply (header_of_text parse _ 1 "Dec. 31, 2020" "Dec. 31, 2020"
                 (Date.mk_datetime 2020 12 31)). }
  assert (header_of parse Sample.second_header_bad 2 = HeaderCaught) as H2.
  { now apply (header_of_text_caught parse _ 2 "Total" "Total" ValueError). }
  unfold set_filing_data.
  change (range 1 (Np.shape1 Sample.second_header_bad)) with [1; 2].
  rewrite for_in_cons, column_step_spec, H1.
  change (rows_to_insert _ _ 1 _ _) with
    (@Ret (list FilingData.t)
       [FilingData.mk "A1" (CStr "Revenue") filing_type (CStr "100") "20201231"]).
  cbn iota.
  change (Store.insert_all _ _) with
    (Some (Store.mk [] [Sample.acme] [Sample.filing_A1]
             [FilingData.mk "A1" (CStr "Revenue") filing_type (CStr "100")
                            "20201231"])).
  cbn iota.
  rewrite for_in_cons, column_step_spec, H2.
  repeat split.
Qed.

Lemma second_header_failure_keeps_first_column_witness :
  let after :=
    set_filing_data MonthDayYear.parse (Sample.filing_A1, Sample.acme)
                    Sample.second_header_bad "10-K" Sample.with_acme in
  snd after = Ret false /\
  Store.filing_data (db_eng (fst after)) =
    [FilingData.mk "A1" (CStr "Revenue") "10-K" (CStr "100") "20201231"] /\
  map FilingInfo.parsed_data (Store.filings (db_eng (fst after))) = [Some true] /\
  session_rows (fst after) = db_eng (fst after) /\
  session_new (fst after) = [].
Proof.
  apply (second_header_failure_keeps_first_column MonthDayYear.parse "10-K");
    reflexivity.
Defined.

(** C6, at two spreadsheets with two periods. The comment on the test
    reads "check to see if values field is blank", but the test reads the
    row's last cell while the value comes from the current column. In the
    first spreadsheet the row Revenue has 100 under the first period and a
    blank under the last: the call succeeds, yet no data point holds the
    100; the row is left out of both columns. In the second the row Costs
    has a blank under the first period and 70 under the last: the record of
    the first column is built with the blank as its value, the write is
    refused, the call returns false and no data point is committed. *)
Theorem value_check_reads_last_cell
  (parse : string -> outcome Date.datetime) (filing_type : string) :
  parse "Dec. 31, 2020" = Ret (Date.mk_datetime 2020 12 31) ->
  parse "Dec. 31, 2019" = Ret (Date.mk_datetime 2019 12 31) ->
  let dropped :=
    set_filing_data parse (Sample.filing_A1, Sample.acme)
                    Sample.with_blanks filing_type Sample.with_acme in
  let blank :=
    set_filing_data parse (Sample.filing_A1, Sample.acme)
                    Sample.blank_first_period filing_type Sample.with_acme in
  Np.getitem2 Sample.with_blanks 1 1 = Ret (CStr "100") /\
  snd dropped = Ret true /\
  Store.filing_data (db_eng (fst dropped)) =
    [FilingData.mk "A1" (CStr "Costs") filing_type (CStr "60") "20201231";
     FilingData.mk "A1" (CStr "Costs") filing_type (CStr "70") "20191231"] /\
  Np.getitem2 Sample.blank_first_period 1 1 = Ret (CStr "") /\
  rows_to_insert "A1" filing_type 1 "20201231"
                 (Np.below_header Sample.blank_first_period)
  = Ret [FilingData.mk "A1" (CStr "Costs") filing_type (CStr "") "20201231"] /\
  snd blank = Ret false /\
  Store.filing_data (db_eng (fst blank)) = [].
Proof.
  intros H20 H19 dropped blank.
  assert (header_of parse Sample.with_blanks 1 = HeaderPeriod "20201231") as Hd1.
  { now apply (header_of_text parse _ 1 "Dec. 31, 2020" "Dec. 31, 2020"
                 (Date.mk_datetime 2020 12 31)). }
  assert (header_of parse Sample.with_blanks 2 = HeaderPeriod "20191231") as Hd2.
  { now apply (header_of_text parse _ 2 "Dec. 31, 2019" "Dec. 31, 2019"
                 (Date.mk_datetime 2019 12 31)). }
  assert (header_of parse Sample.blank_first_period 1 = HeaderPeriod "20201231")
    as Hb1.
  { now apply (header_of_text parse _ 1 "Dec. 31, 2020" "Dec. 31, 2020"
                 (Date.mk_datetime 2020 12 31)). }
  split; [reflexivity |].
  assert (dropped =
          (column_committed
             (column_committed Sample.with_acme "A1"
                (Store.mk [] [Sample.acme] [Sample.filing_A1]
                   [FilingData.mk "A1" (CStr "Costs") filing_type (CStr "60")
                                  "20201231"]))
             "A1"
             (Store.mk [] [Sample.acme]
                [FilingInfo.mk (Some "0001") "A1" None None None None None None
                               (Some true) None]
                [FilingData.mk "A1" (CStr "Costs") filing_type (CStr "60")
                               "20201231";
                 FilingData.mk "A1" (CStr "Costs") filing_type (CStr "70")
                               "20191231"]),
           Ret true)) as ->.
  { subst dropped. unfold set_filing_data.
    change (range 1 (Np.shape1 Sample.with_blanks)) with [1; 2].
    rewrite for_in_cons, column_step_spec, Hd1.
    change (rows_to_insert _ _ 1 _ _) with
      (@Ret (list FilingData.t)
         [FilingData.mk "A1" (CStr "Costs") filing_type (CStr "60") "20201231"]).
    cbn iota.
    change (Store.insert_all _ _) with
      (Some (Store.mk [] [Sample.acme] [Sample.filing_A1]
               [FilingData.mk "A1" (CStr "Costs") filing_type (CStr "60")
                              "20201231"])).
    cbn iota.
    rewrite for_in_cons, column_step_spec, Hd2.
    change (rows_to_insert _ _ 2 _ _) with
      (@Ret (list FilingData.t)
         [FilingData.mk "A1" (CStr "Costs") filing_type (CStr "70") "20191231"]).
    cbn iota.
    change (Store.insert_all _ _) with
      (Some (Store.mk [] [Sample.acme]
               [FilingInfo.mk (Some "0001") "A1" None None None None None None
                              (Some true) None]
               [FilingData.mk "A1" (CStr "Costs") filing_type (CStr "60")
                              "20201231";
                FilingData.mk "A1" (CStr "Costs") filing_type (CStr "70")
                              "20191231"])).
    reflexivity. }
  split; [reflexivity |]. split; [reflexivity |].
  split; [reflexivity |]. split; [reflexivity |].
  assert (blank = (rolled_back Sample.with_acme, Ret false)) as ->.
  { subst blank. unfold set_filing_data.
    change (range 1 (Np.shape1 Sample.blank_first_period)) with [1; 2].
    rewrite for_in_cons, column_step_spec, Hb1.
    change (rows_to_insert _ _ 1 _ _) with
      (@Ret (list FilingData.t)
         [FilingData.mk "A1" (CStr "Costs") filing_type (CStr "") "20201231"]).
    cbn iota.
    change (Store.insert_all _ _) with (@None Store.t).
    reflexivity. }
  split; reflexivity.
Qed.

Lemma value_check_reads_last_cell_witness :
  let dropped :=
    set_filing_data MonthDayYear.parse (Sample.filing_A1, Sample.acme)
                    Sample.with_blanks "10-K" Sample.with_acme in
  let blank :=
    set_filing_data MonthDayYear.parse (Sample.filing_A1, Sample.acme)
                    Sample.blank_first_period "10-K" Sample.with_acme in
  Np.getitem2 Sample.with_blanks 1 1 = Ret (CStr "100") /\
  snd dropped = Ret true /\
  Store.filing_data (db_eng (fst dropped)) =
    [FilingData.mk "A1" (CStr "Costs") "10-K" (CStr "60") "20201231";
     FilingData.mk "A1" (CStr "Costs") "10-K" (CStr "70") "20191231"] /\
  Np.getitem2 Sample.blank_first_period 1 1 = Ret (CStr "") /\
  rows_to_insert "A1" "10-K" 1 "20201231"
                 (Np.below_header Sample.blank_first_period)
  = Ret [FilingData.mk "A1" (CStr "Costs") "10-K" (CStr "") "20201231"] /\
  snd blank = Ret false /\
  Store.filing_data (db_eng (fst blank)) = [].
Proof.
  apply (value_check_reads_last_cell MonthDayYear.parse "10-K"); reflexivity.
Defined.

(** C7. The scenario from start to end: on a new database, staging
    Company(cik 0001, name Acme) and Filing(accession A1, company 0001),
    then ingesting the header [Item | USD ($) Dec. 31, 2020] with the row
    [Revenue | 100], succeeds and commits exactly one data point: accession
    A1, term Revenue, the value cell 100, which the Float column binds as
    the number 100, period 20201231, the header without its currency note
    read as a date and printed as year, month, day; and the filings table
    holds filing A1 of company 0001 alone, its parsed-data flag true and
    every other field as inserted. *)
Theorem end_to_end_scenario
  (parse : string -> outcome Date.datetime) (filing_type : string) :
  parse " Dec. 31, 2020" = Ret (Date.mk_datetime 2020 12 31) ->
  let after := Sample.end_to_end parse filing_type Sample.fresh in
  snd after = Ret true /\
  (exists point,
      Store.filing_data (db_eng (fst after)) = [point] /\
      FilingData.filing_accession point = "A1" /\
      FilingData.filing_term point = CStr "Revenue" /\
      FilingData.filing_value point = CStr "100" /\
      Number.to_float (FilingData.filing_value point)
      = Ret (Some (Number.Dec 100 0)) /\
      FilingData.value_period point = "20201231" /\
      FilingData.filing_type point = filing_type) /\
  Store.filings (db_eng (fst after)) =
    [FilingInfo.mk (Some "0001") "A1" None None None None None None
                   (Some true) None] /\
  Store.companies (db_eng (fst after)) =
    [CompanyInfo.mk "0001" (Some "Acme") None None None None].
Proof.
  intros Hdate after.
  assert (header_of parse Sample.one_period 1 = HeaderPeriod "20201231") as H1.
  { now apply (header_of_text parse _ 1 "USD ($) Dec. 31, 2020" " Dec. 31, 2020"
                 (Date.mk_datetime 2020 12 31)). }
  pose (st := Store.update_parsed_data "A1" (Some true)
                (Store.mk [] [Sample.acme] [Sample.filing_A1]
                   [FilingData.mk "A1" (CStr "Revenue") filing_type (CStr "100")
                                  "20201231"])).
  assert (after =
          (mk_db st st []
                 [SelectFilingsIn (Col.OfFiling Col.filing_accession) ["A1"];
                  SelectFilingByAccession "A1"] [], Ret true)) as ->.
  { subst after. unfold Sample.end_to_end.
    unfold bind at 1. change (insert_objects _ _) with
      (mk_db Store.empty Store.empty [Store.Company Sample.acme] [] [], Ret tt).
    cbn iota.
    unfold bind at 1. change (insert_objects _ _) with
      (mk_db Store.empty Store.empty
             [Store.Company Sample.acme; Store.Filing Sample.filing_A1] [] [],
       Ret tt).
    cbn iota.
    unfold bind at 1. change (select_filings_by_accessions _ _) with
      (mk_db Store.empty (Store.mk [] [Sample.acme] [Sample.filing_A1] []) []
             [SelectFilingsIn (Col.OfFiling Col.filing_accession) ["A1"]] [],
       Ret [(Sample.filing_A1, Sample.acme)]).
    cbn iota.
    unfold set_filing_data.
    change (range 1 (Np.shape1 Sample.one_period)) with [1].
    rewrite for_in_cons, column_step_spec, H1.
    change (rows_to_insert _ _ 1 _ _) with
      (@Ret (list FilingData.t)
         [FilingData.mk "A1" (CStr "Revenue") filing_type (CStr "100")
                        "20201231"]).
    cbn iota.
    change (Store.insert_all _ _) with
      (Some (Store.mk [] [Sample.acme] [Sample.filing_A1]
               [FilingData.mk "A1" (CStr "Revenue") filing_type (CStr "100")
                              "20201231"])).
    reflexivity. }
  split; [reflexivity |]. split; [| split; reflexivity].
  eexists. split; [reflexivity |]. repeat split.
Qed.

Lemma end_to_end_scenario_witness :
  let after := Sample.end_to_end MonthDayYear.parse "10-K" Sample.fresh in
  snd after = Ret true /\
  (exists point,
      Store.filing_data (db_eng (fst after)) = [point] /\
      FilingData.filing_accession point = "A1" /\
      FilingData.filing_term point = CStr "Revenue" /\
      FilingData.filing_value point = CStr "100" /\
      Number.to_float (FilingData.filing_value point)
      = Ret (Some (Number.Dec 100 0)) /\
      FilingData.value_period point = "20201231" /\
      FilingData.filing_type point = "10-K") /\
  Store.filings (db_eng (fst after)) =
    [FilingInfo.mk (Some "0001") "A1" None None None None None None
                   (Some true) None] /\
  Store.companies (db_eng (fst after)) =
    [CompanyInfo.mk "0001" (Some "Acme") None None None None].
Proof.
  apply (end_to_end_scenario MonthDayYear.parse "10-K"). reflexivity.
Defined.

(** A term on two rows gives two records with one key: the write of the
    first column is refused, nothing is committed. *)
Example repeated_term_rejected :
  set_filing_data MonthDayYear.parse (Sample.filing_A1, Sample.acme)
                  Sample.repeated_term "10-K" Sample.with_acme
  = (rolled_back Sample.with_acme, Ret false).
Proof. vm_compute. reflexivity. Qed.

(** A header cell that is not text ends the call with [False] and without
    a rollback: what was staged stays staged. *)
Example numeric_header_no_rollback :
  let staged := mk_db Store.empty Store.empty [Store.Company Sample.acme] [] [] in
  set_filing_data MonthDayYear.parse (Sample.filing_A1, Sample.acme)
                  (Np.mk 2 [[CStr "Item"; CNum 2020]; [CStr "Revenue"; CStr "100"]])
                  "10-K" staged
  = (staged, Ret false).
Proof. vm_compute. reflexivity. Qed.

(** ** The parsed-data flag *)

Section FlagFacts.
Variable parse : string -> outcome Date.datetime.
Variables (filing : FilingInfo.t * CompanyInfo.t) (data : Np.ndarray)
          (filing_type : string).

Local Abbreviation accession := (FilingInfo.filing_accession (fst filing)).
Local Abbreviation step := (column_step parse filing data filing_type).

Lemma flag_with_batch_loop (cs : list nat) :
  forall self self' r,
    for_in cs step true self = (self', r) ->
    forall f,
      In f (Store.filings (db_eng self')) ->
      FilingInfo.parsed_data f = Some true ->
      in_session self f \/
      (FilingInfo.filing_accession f = accession /\
       batch_committed parse filing data filing_type cs self').
Proof.
  induction cs as [| c cs IH]; intros self self' r.
  - simpl. unfold ret. intros H; injection H as <- _.
    intros f Hf _. left. left. exact Hf.
  - rewrite for_in_cons.
    destruct (step c self) as [s1 o] eqn:Hstep.
    destruct (column_step_inv _ _ _ _ _ _ _ _ Hstep)
      as [[-> Ho] | [[-> ->] | [-> (period & records & st & Hh & Hr & Hst & ->)]]].
    + destruct o as [[[] | b] | e]; [now elim Ho | |];
        intros H; injection H as <- _; intros f Hf _; left; left; exact Hf.
    + intros H; injection H as <- _. intros f Hf _. left; left. exact Hf.
    + intros H f Hf Hflag.
      pose proof (committed_data_kept _ _ _ _ _ _ _ _ H (incl_refl _)) as Hkept.
      destruct (IH _ _ _ H f Hf Hflag)
        as [Hin | (Hacc & c' & p' & recs' & Hc' & Hh' & Hr' & Hi')].
      * apply insert_all_tables in Hst. destruct Hst as (_ & _ & Hfs & Hds).
        assert (In f (map (fun f0 =>
                             if String.eqb (FilingInfo.filing_accession f0) accession
                             then FilingInfo.with_parsed_data (Some true) f0
                             else f0) (Store.filings st))) as Hmap.
        { destruct Hin as [Hin | [Hin | []]]; exact Hin. }
        apply in_map_iff in Hmap. destruct Hmap as (f0 & Hf0 & Hin0).
        destruct (String.eqb (FilingInfo.filing_accession f0) accession) eqn:E.
        -- right. split.
           { subst f. simpl. now apply String.eqb_eq. }
           exists c, period, records. repeat split; auto using in_eq.
           eapply incl_tran; [| exact Hkept]. simpl.
           rewrite Hds. autorewrite with staged.
           apply incl_appr, incl_appr, incl_refl.
        -- left. subst f0. rewrite Hfs in Hin0.
           autorewrite with staged in Hin0. rewrite app_nil_r in Hin0.
           apply in_app_or in Hin0. destruct Hin0 as [Hin0 | Hin0].
           ++ right; left. exact Hin0.
           ++ right; right. now apply In_staged_filings.
      * right. split; [exact Hacc |].
        exists c', p', recs'. repeat split; auto using in_cons.
Qed.

End FlagFacts.

(** C2, as the code has it. A filing row that [set_filing_data] leaves
    committed with a true parsed-data flag either was in the session before
    the call exactly as it is, or it carries the accession of the ingested
    filing and the batch of one of the data columns, every record built for
    that column, is committed with it. The batch can be empty. *)
Theorem flag_committed_with_batch
  (parse : string -> outcome Date.datetime)
  (filing : FilingInfo.t * CompanyInfo.t) (data : Np.ndarray)
  (filing_type : string) (self self' : EdgarDatabase) (r : outcome bool) :
  set_filing_data parse filing data filing_type self = (self', r) ->
  forall f,
    In f (Store.filings (db_eng self')) ->
    FilingInfo.parsed_data f = Some true ->
    in_session self f \/
    (FilingInfo.filing_accession f = FilingInfo.filing_accession (fst filing) /\
     batch_committed parse filing data filing_type
                     (range 1 (Np.shape1 data)) self').
Proof.
  unfold set_filing_data. apply flag_with_batch_loop.
Qed.

Lemma flag_committed_with_batch_witness :
  let self' := fst (set_filing_data MonthDayYear.parse
                      (Sample.filing_A1, Sample.acme) Sample.one_period "10-K"
                      Sample.with_acme) in
  let f := FilingInfo.with_parsed_data (Some true) Sample.filing_A1 in
  in_session Sample.with_acme f \/
  (FilingInfo.filing_accession f = "A1" /\
   batch_committed MonthDayYear.parse (Sample.filing_A1, Sample.acme)
                   Sample.one_period "10-K" (range 1 2) self').
Proof.
  intros self' f.
  apply (flag_committed_with_batch MonthDayYear.parse
           (Sample.filing_A1, Sample.acme) Sample.one_period "10-K"
           Sample.with_acme self' (Ret true)).
  - vm_compute. reflexivity.
  - vm_compute. left. reflexivity.
  - reflexivity.
Defined.

(** C2 as worded fails: ingesting a spreadsheet that has a dated header and
    no row below it commits filing A1 with its flag true, while no data
    point is committed at all. *)
Lemma flag_without_data_points :
  ~ flag_only_with_new_data MonthDayYear.parse (Sample.filing_A1, Sample.acme)
      Sample.header_only "10-K" Sample.with_acme.
Proof.
  unfold flag_only_with_new_data. intros H.
  specialize (H (FilingInfo.with_parsed_data (Some true) Sample.filing_A1)).
  assert (set_filing_data MonthDayYear.parse (Sample.filing_A1, Sample.acme)
            Sample.header_only "10-K" Sample.with_acme
          = (mk_db (Store.mk [] [Sample.acme]
                      [FilingInfo.with_parsed_data (Some true) Sample.filing_A1] [])
                   (Store.mk [] [Sample.acme]
                      [FilingInfo.with_parsed_data (Some true) Sample.filing_A1] [])
                   [] [SelectFilingByAccession "A1"] [], Ret true)) as E
    by (vm_compute; reflexivity).
  rewrite E in H. simpl in H.
  destruct H as [[H | [H | H]] | (d & [] & _)]; auto.
  - destruct H as [H | []]. discriminate H.
  - destruct H as [H | []]. discriminate H.
Qed.

(** ** Pattern matching *)

Lemma like_percent_step (q s : string) :
  Str.like (String Str.percent q) s =
  Str.like q s ||
  match s with
  | EmptyString => false
  | String _ s' => Str.like (String Str.percent q) s'
  end.
Proof. destruct s; reflexivity. Qed.

Lemma like_percent_any (s : string) : Str.like "%" s = true.
Proof.
  induction s as [| c s IH].
  - reflexivity.
  - change "%" with (String Str.percent EmptyString) in *.
    rewrite like_percent_step, IH. apply orb_true_r.
Qed.

Lemma wildcard_free_cons (c : ascii) (p : string) :
  Str.wildcard_free (String c p) = true ->
  Ascii.eqb c Str.percent = false /\ Ascii.eqb c Str.underscore = false /\
  Str.wildcard_free p = true.
Proof.
  simpl. unfold Str.is_wildcard. intros H. apply andb_prop in H.
  destruct H as [H1 H2]. apply negb_true_iff, orb_false_elim in H1. tauto.
Qed.

Lemma like_plain_cons (c : ascii) (p s : string) :
  Ascii.eqb c Str.percent = false ->
  Ascii.eqb c Str.underscore = false ->
  Str.like (String c p) s =
  match s with
  | EmptyString => false
  | String sc s' => Ascii.eqb c sc && Str.like p s'
  end.
Proof. intros H1 H2. simpl. rewrite H1. destruct s; [reflexivity |]. now rewrite H2. Qed.

(** A pattern without wildcards matches itself only. *)
Lemma like_exact (p : string) :
  Str.wildcard_free p = true -> forall s, Str.like p s = String.eqb p s.
Proof.
  induction p as [| c p IH]; intros Hw s.
  - destruct s; reflexivity.
  - apply wildcard_free_cons in Hw. destruct Hw as (H1 & H2 & Hw).
    rewrite like_plain_cons by assumption.
    destruct s as [| sc s]; [reflexivity |]. simpl. now rewrite IH.
Qed.

Lemma like_prefix (p : string) :
  Str.wildcard_free p = true ->
  forall s, Str.like (p ++ "%")%string s = String.prefix p s.
Proof.
  induction p as [| c p IH]; intros Hw s.
  - simpl String.append. rewrite like_percent_any. now destruct s.
  - apply wildcard_free_cons in Hw. destruct Hw as (H1 & H2 & Hw).
    simpl String.append. rewrite like_plain_cons by assumption.
    destruct s as [| sc s]; [reflexivity |]. simpl. rewrite IH by assumption.
    destruct (ascii_dec c sc) as [-> | Hne].
    + now rewrite Ascii.eqb_refl.
    + apply Ascii.eqb_neq in Hne. now rewrite Hne.
Qed.

Lemma like_contains (p : string) :
  Str.wildcard_free p = true ->
  forall s, Str.like ("%" ++ p ++ "%")%string s = contains p s.
Proof.
  intros Hw s. change ("%" ++ p ++ "%")%string with (String Str.percent (p ++ "%")%string).
  induction s as [| c s IH].
  - rewrite like_percent_step, like_prefix by assumption. reflexivity.
  - rewrite like_percent_step, like_prefix, IH by assumption. reflexivity.
Qed.

Lemma lower_app (a b : string) :
  Str.lower (a ++ b)%string = (Str.lower a ++ Str.lower b)%string.
Proof. induction a as [| c a IH]; simpl; congruence. Qed.

Lemma is_wildcard_lower_char (c : ascii) :
  Str.is_wildcard (Str.lower_char c) = Str.is_wildcard c.
Proof. destruct c as [[] [] [] [] [] [] [] []]; reflexivity. Qed.

Lemma wildcard_free_lower (s : string) :
  Str.wildcard_free (Str.lower s) = Str.wildcard_free s.
Proof.
  induction s as [| c s IH]; simpl; [reflexivity |].
  now rewrite is_wildcard_lower_char, IH.
Qed.

(** On a term without [%] and [_], the query's pattern match is the match
    with letter case ignored. *)
Lemma ilike_folded (l : lookup) (c : CompanyInfo.t) :
  Str.wildcard_free (lookup_term l) = true ->
  Str.ilike (Col.company_value (lookup_column l) c) (lookup_pattern l)
  = matches_folded l c.
Proof.
  intros Hw. unfold Str.ilike, matches_folded.
  destruct (Col.company_value (lookup_column l) c) as [v |]; [| reflexivity].
  rewrite <- wildcard_free_lower in Hw.
  destruct l as [t | t | t | t];
    try (now apply like_exact).
  unfold lookup_pattern, lookup_term in *.
  rewrite (lower_app "%"), lower_app. now apply like_contains.
Qed.

(** ** Lookups of distinct cik values *)

Lemma run_lookup_eq (l : lookup) :
  run_lookup l = _select_distinct_ciks (lookup_column l) (lookup_pattern l).
Proof. destruct l; reflexivity. Qed.

Lemma select_distinct_ciks_spec (col : Col.company) (term : string)
  (self : EdgarDatabase) :
  _select_distinct_ciks col term self =
  match Store.insert_all (session_rows self) (session_new self) with
  | None => (self, Raise (Store.refusal (session_rows self) (session_new self)))
  | Some st =>
      match filter (fun c => Str.ilike (Col.company_value col c) term)
                   (Store.companies st) with
      | [] =>
          (mk_db (db_eng self) st [] (queries self ++ [SelectCiksLike col term])
                 (stdout self ++ [no_results_found]),
           Raise (SystemExit 0))
      | found =>
          (mk_db (db_eng self) st [] (queries self ++ [SelectCiksLike col term])
                 (stdout self),
           Ret (map CompanyInfo.company_cik found))
      end
  end.
Proof.
  unfold _select_distinct_ciks, Session.query_ciks_ilike.
  unfold bind at 1. unfold bind at 1. unfold Session.flush at 1.
  destruct (Store.insert_all _ _) as [st |]; [| reflexivity].
  unfold bind, Session.sent, Session.rows, ret; simpl.
  destruct (filter _ _); reflexivity.
Qed.

(** A lookup never hands an empty list back. *)
Lemma lookup_never_returns_empty (l : lookup) (self self' : EdgarDatabase) :
  run_lookup l self <> (self', Ret []).
Proof.
  rewrite run_lookup_eq, select_distinct_ciks_spec.
  destruct (Store.insert_all _ _) as [st |]; [| discriminate].
  destruct (filter _ _); discriminate.
Qed.

(** C9. For each of the four lookups of distinct cik values (by state, by
    industry code, by ticker, by name): when the query is sent and matches
    no company, the call prints its message and raises the interpreter's
    exit with status 0; nothing, and in particular no empty list, is
    returned to the caller. *)
Theorem lookup_without_match_exits (l : lookup) (self : EdgarDatabase)
  (st : Store.t) :
  Store.insert_all (session_rows self) (session_new self) = Some st ->
  filter (fun c => Str.ilike (Col.company_value (lookup_column l) c)
                             (lookup_pattern l))
         (Store.companies st) = [] ->
  run_lookup l self = (looked_up_nothing self st l, Raise (SystemExit 0)).
Proof.
  intros Hw Hnone. rewrite run_lookup_eq, select_distinct_ciks_spec, Hw, Hnone.
  reflexivity.
Qed.

Lemma lookup_without_match_exits_witness :
  run_lookup (ByName "Initech") Sample.with_two_companies
  = (looked_up_nothing Sample.with_two_companies Sample.two_companies
                       (ByName "Initech"),
     Raise (SystemExit 0)).
Proof.
  apply (lookup_without_match_exits (ByName "Initech") Sample.with_two_companies
           Sample.two_companies); reflexivity.
Defined.

(** C8, as the code has it. For each of the four lookups, when the term
    has no [%] and no [_]: a lookup by state, industry code or ticker
    matches the companies whose column equals the term with letter case
    ignored, a lookup by name those whose name contains the term with
    letter case ignored; the call returns the cik values of the matching
    companies in table order when there is one, and exits otherwise. *)
Theorem lookup_matches_folded (l : lookup) (self : EdgarDatabase) (st : Store.t) :
  Store.insert_all (session_rows self) (session_new self) = Some st ->
  Str.wildcard_free (lookup_term l) = true ->
  run_lookup l self =
  match filter (matches_folded l) (Store.companies st) with
  | [] => (looked_up_nothing self st l, Raise (SystemExit 0))
  | found => (looked_up self st l, Ret (map CompanyInfo.company_cik found))
  end.
Proof.
  intros Hw Hfree. rewrite run_lookup_eq, select_distinct_ciks_spec, Hw.
  rewrite (filter_ext _ (matches_folded l)); [reflexivity |].
  intros c. now apply ilike_folded.
Qed.

Lemma lookup_matches_folded_witness :
  run_lookup (ByState "ca") Sample.with_two_companies
  = (looked_up Sample.with_two_companies Sample.two_companies (ByState "ca"),
     Ret ["0002"]).
Proof.
  apply (lookup_matches_folded (ByState "ca") Sample.with_two_companies
           Sample.two_companies); reflexivity.
Defined.

(** The lookup by name finds a company by a part of its name in any case. *)
Example lookup_by_name_part :
  snd (run_lookup (ByName "CORP") Sample.with_two_companies) = Ret ["0002"].
Proof. reflexivity. Qed.

(** A [_] in the term stands for any character. *)
Example lookup_by_ticker_wildcard :
  snd (run_lookup (ByTicker "GL_X") Sample.with_two_companies) = Ret ["0002"].
Proof. reflexivity. Qed.

(** C8 as worded fails: the lookup by state with the term [ca] returns
    Globex, whose state is [CA]; the column does not equal the term. *)
Lemma lookup_by_state_ignores_case :
  ~ lookup_returns_worded (ByState "ca") Sample.with_two_companies.
Proof.
  intros H.
  specialize (H (looked_up Sample.with_two_companies Sample.two_companies
                           (ByState "ca"))
                ["0002"] eq_refl).
  discriminate H.
Qed.

(** ** The filtered join and its chunks *)

Lemma query_filings_in_spec (col : Col.joined) (terms : list string)
  (self : EdgarDatabase) :
  Session.query_filings_in col terms self =
  match Store.insert_all (session_rows self) (session_new self) with
  | None => (self, Raise (Store.refusal (session_rows self) (session_new self)))
  | Some st =>
      (mk_db (db_eng self) st [] (queries self ++ [SelectFilingsIn col terms])
             (stdout self),
       Ret (Store.filings_in st col terms))
  end.
Proof.
  unfold Session.query_filings_in.
  unfold bind at 1. unfold Session.flush at 1.
  destruct (Store.insert_all _ _) as [st |]; reflexivity.
Qed.

(** Once the staged objects are written, each further chunk is one more
    query on the same rows. *)
Lemma chunk_queries (col : Col.joined) (chunks : list (list string)) :
  forall self,
    session_new self = [] ->
    for_append chunks (fun chunk => Session.query_filings_in col chunk) self =
    (mk_db (db_eng self) (session_rows self) []
           (queries self ++ map (SelectFilingsIn col) chunks) (stdout self),
     Ret (map (Store.filings_in (session_rows self) col) chunks)).
Proof.
  induction chunks as [| chunk chunks IH]; intros self Hnew.
  - destruct self; simpl in *; subst. unfold ret. now rewrite app_nil_r.
  - simpl for_append. unfold bind at 1. rewrite query_filings_in_spec, Hnew.
    simpl Store.insert_all. cbn iota. unfold bind at 1.
    rewrite IH by reflexivity. simpl. unfold ret.
    now rewrite <- app_assoc.
Qed.

(** The queries [_select_filings] sends for a list of terms. *)
Lemma select_filings_spec (col : Col.joined) (terms : list string)
  (chunks : list (list string)) (self : EdgarDatabase) (st : Store.t) :
  chunks = (if Nat.ltb (List.length terms) 999 then [terms]
            else query_term_chunks terms) ->
  chunks <> [] ->
  Store.insert_all (session_rows self) (session_new self) = Some st ->
  _select_filings col terms self =
  (mk_db (db_eng self) st [] (queries self ++ map (SelectFilingsIn col) chunks)
         (stdout self),
   Ret (flatten (map (Store.filings_in st col) chunks))).
Proof.
  intros -> Hne Hw. unfold _select_filings.
  destruct (Nat.ltb (List.length terms) 999).
  - rewrite query_filings_in_spec, Hw. unfold flatten. simpl.
    now rewrite app_nil_r.
  - destruct (query_term_chunks terms) as [| chunk chunks]; [now elim Hne |].
    unfold bind at 1. simpl for_append. unfold bind at 1.
    rewrite query_filings_in_spec, Hw. cbn iota. unfold bind at 1.
    rewrite chunk_queries by reflexivity. simpl. unfold ret.
    now rewrite <- app_assoc.
Qed.

(** Fewer than 999 terms: one query with all of them. *)
Lemma select_filings_single_query (col : Col.joined) (terms : list string)
  (self : EdgarDatabase) (st : Store.t) :
  List.length terms < 999 ->
  Store.insert_all (session_rows self) (session_new self) = Some st ->
  _select_filings col terms self =
  (mk_db (db_eng self) st [] (queries self ++ [SelectFilingsIn col terms])
         (stdout self),
   Ret (Store.filings_in st col terms)).
Proof.
  intros Hlen Hw. apply Nat.ltb_lt in Hlen.
  rewrite (select_filings_spec col terms [terms] self st); auto.
  - unfold flatten. simpl. now rewrite app_nil_r.
  - now rewrite Hlen.
  - discriminate.
Qed.

Lemma firstn_plus {A : Type} (a b : nat) (l : list A) :
  firstn (a + b) l = firstn a l ++ firstn b (skipn a l).
Proof.
  revert l. induction a as [| a IH]; intros l; [reflexivity |].
  destruct l as [| x l]; simpl.
  - now rewrite firstn_nil.
  - now rewrite IH.
Qed.

Lemma slices_concat {A : Type} (step n : nat) (l : list A) :
  List.concat (map (fun i => slice l i step) (map (fun k => k * step) (seq 0 n)))
  = firstn (n * step) l.
Proof.
  induction n as [| n IH]; [reflexivity |].
  rewrite seq_S, !map_app, concat_app, IH. simpl.
  rewrite app_nil_r. unfold slice.
  now rewrite (Nat.add_comm step), firstn_plus.
Qed.

(** The chunks, put end to end, are the list of terms. *)
Lemma query_term_chunks_concat (terms : list string) :
  List.concat (query_term_chunks terms) = terms.
Proof.
  unfold query_term_chunks, range_step. rewrite slices_concat.
  apply firstn_all2.
  set (n := List.length terms).
  pose proof (Nat.div_mod_eq (n + 995 - 1) 995) as E.
  pose proof (Nat.mod_upper_bound (n + 995 - 1) 995 ltac:(discriminate)) as B.
  lia.
Qed.

(** No chunk has more than 995 terms. *)
Lemma query_term_chunks_bounded (terms : list string) :
  Forall (fun chunk => List.length chunk <= 995) (query_term_chunks terms).
Proof.
  unfold query_term_chunks. apply Forall_forall. intros chunk Hin.
  apply in_map_iff in Hin. destruct Hin as (i & <- & _).
  unfold slice. apply firstn_le_length.
Qed.

Lemma query_term_chunks_nonempty (terms : list string) :
  terms <> [] -> query_term_chunks terms <> [].
Proof.
  intros Hne Hnil. pose proof (query_term_chunks_concat terms) as E.
  rewrite Hnil in E. simpl in E. now subst.
Qed.

(** From 999 terms on: one query per chunk, the results put end to end in
    chunk order. *)
Lemma select_filings_chunked (col : Col.joined) (terms : list string)
  (self : EdgarDatabase) (st : Store.t) :
  999 <= List.length terms ->
  Store.insert_all (session_rows self) (session_new self) = Some st ->
  _select_filings col terms self =
  (mk_db (db_eng self) st []
         (queries self ++ map (SelectFilingsIn col) (query_term_chunks terms))
         (stdout self),
   Ret (flatten (map (Store.filings_in st col) (query_term_chunks terms)))).
Proof.
  intros Hlen Hw. apply select_filings_spec; auto.
  - apply Nat.ltb_ge in Hlen. now rewrite Hlen.
  - apply query_term_chunks_nonempty. intros ->. simpl in Hlen. lia.
Qed.

Lemma NoDup_app_disjoint {A : Type} (a b : list A) (x : A) :
  NoDup (a ++ b) -> In x a -> In x b -> False.
Proof.
  induction a as [| y a IH]; simpl; [tauto |].
  intros Hnd [-> | Hin] Hb.
  - apply NoDup_cons_iff in Hnd. destruct Hnd as [Hn _].
    apply Hn, in_or_app. now right.
  - apply NoDup_cons_iff in Hnd. destruct Hnd as [_ Hnd]. now apply IH.
Qed.

Lemma in__In (s : string) (terms : list string) :
  Store.in_ (Some s) terms = true <-> In s terms.
Proof.
  simpl. rewrite existsb_exists. split.
  - intros (x & Hx & E). apply String.eqb_eq in E. now subst.
  - intros H. exists s. split; [exact H | apply String.eqb_refl].
Qed.

(** Rows matching one of two lists that share no term: the rows matching
    the first, then those matching the second, up to order. *)
Lemma filter_in_split {R : Type} (key : R -> option string)
  (a b : list string) (rows : list R) :
  NoDup (a ++ b) ->
  Permutation (filter (fun r => Store.in_ (key r) a) rows
               ++ filter (fun r => Store.in_ (key r) b) rows)
              (filter (fun r => Store.in_ (key r) (a ++ b)) rows).
Proof.
  intros Hnd. induction rows as [| r rows IH]; simpl; [constructor |].
  destruct (key r) as [s |] eqn:Ek; [| exact IH].
  assert (Store.in_ (Some s) (a ++ b)
          = Store.in_ (Some s) a || Store.in_ (Some s) b) as -> by apply existsb_app.
  destruct (Store.in_ (Some s) a) eqn:Ea, (Store.in_ (Some s) b) eqn:Eb; simpl.
  - exfalso. apply in__In in Ea, Eb. exact (NoDup_app_disjoint a b s Hnd Ea Eb).
  - now constructor.
  - apply Permutation_sym, Permutation_cons_app, Permutation_sym, IH.
  - exact IH.
Qed.

Lemma chunks_permutation {R : Type} (key : R -> option string) (rows : list R)
  (chunks : list (list string)) :
  NoDup (List.concat chunks) ->
  Permutation
    (List.concat (map (fun chunk => filter (fun r => Store.in_ (key r) chunk) rows)
                      chunks))
    (filter (fun r => Store.in_ (key r) (List.concat chunks)) rows).
Proof.
  induction chunks as [| chunk chunks IH]; simpl; intros Hnd.
  - induction rows as [| r rows IHr]; simpl; [constructor |].
    destruct (key r); exact IHr.
  - eapply Permutation_trans; [| apply filter_in_split; exact Hnd].
    apply Permutation_app_head, IH. eapply NoDup_app_remove_l, Hnd.
Qed.

(** When no term occurs twice, the chunked lookup returns the rows of the
    single query over the whole list, each once, up to order. *)
Lemma select_filings_chunked_permutation (col : Col.joined)
  (terms : list string) (self : EdgarDatabase) (st : Store.t) :
  999 <= List.length terms ->
  NoDup terms ->
  Store.insert_all (session_rows self) (session_new self) = Some st ->
  exists result,
    snd (_select_filings col terms self) = Ret result /\
    Permutation result (Store.filings_in st col terms).
Proof.
  intros Hlen Hnd Hw. rewrite (select_filings_chunked col terms self st Hlen Hw).
  eexists. split; [reflexivity |].
  pose proof (chunks_permutation (Col.joined_value col) (Store.join st)
                (query_term_chunks terms)) as P.
  rewrite query_term_chunks_concat in P. exact (P Hnd).
Qed.

(** C4, at a thousand accession numbers of which the first and the last
    are both A1. The two occurrences fall into different chunks, and the
    chunked lookup returns the row of filing A1 twice; the single query
    over the whole list returns it once. *)
Theorem repeated_term_returned_twice :
  List.length Sample.accessions_repeating = 1000 /\
  snd (select_filings_by_accessions Sample.accessions_repeating Sample.with_acme)
  = Ret [(Sample.filing_A1, Sample.acme); (Sample.filing_A1, Sample.acme)] /\
  snd (Session.query_filings_in (Col.OfFiling Col.filing_accession)
         Sample.accessions_repeating Sample.with_acme)
  = Ret [(Sample.filing_A1, Sample.acme)].
Proof. vm_compute. repeat split. Qed.

(** C5, at exactly 999 terms: the lookup is not sent as one query. It is
    split into a query with the first 995 terms and a query with the last
    four, and the two results are put end to end. *)
Theorem select_filings_999_two_queries (col : Col.joined) (terms : list string)
  (self : EdgarDatabase) (st : Store.t) :
  List.length terms = 999 ->
  Store.insert_all (session_rows self) (session_new self) = Some st ->
  _select_filings col terms self =
  (mk_db (db_eng self) st []
         (queries self ++ [SelectFilingsIn col (firstn 995 terms);
                           SelectFilingsIn col (skipn 995 terms)])
         (stdout self),
   Ret (Store.filings_in st col (firstn 995 terms)
        ++ Store.filings_in st col (skipn 995 terms))).
Proof.
  intros Hlen Hw.
  rewrite (select_filings_chunked col terms self st) by (auto; lia).
  assert (query_term_chunks terms = [firstn 995 terms; skipn 995 terms]) as ->.
  { unfold query_term_chunks. rewrite Hlen.
    change (range_step 999 995) with [0; 995]. simpl map. unfold slice.
    rewrite (firstn_all2 (n := 995) (skipn 995 terms));
      [reflexivity | rewrite length_skipn; lia]. }
  unfold flatten. simpl. now rewrite app_nil_r.
Qed.

Lemma select_filings_999_two_queries_witness :
  List.length Sample.accessions_999 = 999 /\
  queries (fst (select_filings_by_accessions Sample.accessions_999
                  Sample.with_acme))
  = [SelectFilingsIn (Col.OfFiling Col.filing_accession)
       (firstn 995 Sample.accessions_999);
     SelectFilingsIn (Col.OfFiling Col.filing_accession)
       (skipn 995 Sample.accessions_999)].
Proof.
  split; [reflexivity |].
  unfold select_filings_by_accessions.
  rewrite (select_filings_999_two_queries (Col.OfFiling Col.filing_accession)
             Sample.accessions_999 Sample.with_acme Sample.acme_store);
    reflexivity.
Defined.

(* ================================================================== *)
(** * Further properties *)

(** ** Existence checks *)

Lemma column_values_tables (st st' : Store.t) (es : list Store.entity)
  (col : Col.joined) :
  Store.insert_all st es = Some st' ->
  Store.column_values st' col =
  Store.column_values st col
  ++ flat_map (fun e => match e, col with
                        | Store.Company r, Col.OfCompany c => [Col.company_value c r]
                        | Store.Filing r, Col.OfFiling c => [Col.filing_value c r]
                        | _, _ => []
                        end) es.
Proof.
  intros H. apply insert_all_tables in H. destruct H as (_ & Hc & Hf & _).
  destruct col as [c | c]; simpl.
  - rewrite Hc, map_app. f_equal. unfold staged_companies. clear.
    induction es as [| [r | r | r | r] es IH]; simpl; rewrite ?IH; reflexivity.
  - rewrite Hf, map_app. f_equal. unfold staged_filings. clear.
    induction es as [| [r | r | r | r] es IH]; simpl; rewrite ?IH; reflexivity.
Qed.

Lemma equals_In (value : string) (values : list (option string)) :
  existsb (fun v => Store.equals v value) values = true <-> In (Some value) values.
Proof.
  rewrite existsb_exists. split.
  - intros ([s |] & Hin & E); [| discriminate].
    apply String.eqb_eq in E. now subst.
  - intros H. exists (Some value). split; [exact H | apply String.eqb_refl].
Qed.

Lemma check_exists_spec (col : Col.joined) (value : string) (self : EdgarDatabase) :
  _check_exists col value self =
  match Store.insert_all (session_rows self) (session_new self) with
  | None => (self, Raise (Store.refusal (session_rows self) (session_new self)))
  | Some st =>
      (flushed self st,
       Ret (existsb (fun v => Store.equals v value) (Store.column_values st col)))
  end.
Proof.
  unfold _check_exists, Session.query_first_distinct_where_exists.
  unfold bind at 1. unfold bind at 1. unfold Session.flush at 1.
  destruct (Store.insert_all _ _) as [st |]; [| reflexivity].
  unfold bind, Session.rows, ret, flushed; simpl.
  destruct (existsb _ _) eqn:E; [| reflexivity].
  destruct (hd_error _) eqn:Eh; [reflexivity | exfalso].
  apply equals_In in E. unfold Store.distinct in Eh.
  apply (nodup_In Store.value_eq_dec) in E.
  destruct (nodup _ _); [exact E | discriminate].
Qed.

(** X1. An existence check whose session can write what is staged answers
    true exactly when some row visible after that write holds the value in
    the column; the row that the query hands back plays no part. *)
Theorem check_exists_iff (col : Col.joined) (value : string)
  (self : EdgarDatabase) (st : Store.t) :
  Store.insert_all (session_rows self) (session_new self) = Some st ->
  exists answer,
    _check_exists col value self = (flushed self st, Ret answer) /\
    (answer = true <-> In (Some value) (Store.column_values st col)).
Proof.
  intros Hw. rewrite check_exists_spec, Hw. eexists. split; [reflexivity |].
  apply equals_In.
Qed.

Lemma check_exists_iff_witness :
  exists answer,
    check_cik_exists "0002" Sample.with_two_companies
    = (flushed Sample.with_two_companies Sample.two_companies, Ret answer) /\
    (answer = true <->
     In (Some "0002")
        (Store.column_values Sample.two_companies (Col.OfCompany Col.company_cik))).
Proof.
  apply (check_exists_iff (Col.OfCompany Col.company_cik) "0002"
           Sample.with_two_companies Sample.two_companies).
  reflexivity.
Defined.

(** X2. Insert, then check: once an object is handed to [insert_objects],
    alone or in a list, and the staged objects can be written, the
    existence check for the value the object has in a column of its table
    (the cik of a company; the accession or the URL of a filing) answers
    true. *)
Theorem insert_then_check (objects : Store.entity + list Store.entity)
  (e : Store.entity) (col : Col.joined) (value : string)
  (self : EdgarDatabase) (st : Store.t) :
  In e (objects_of objects) ->
  entity_value e col = Some value ->
  Store.insert_all (session_rows self) (session_new self ++ objects_of objects)
  = Some st ->
  (insert_objects objects ;; _check_exists col value) self
  = (flushed self st, Ret true).
Proof.
  intros Hin Hval Hw. unfold bind, insert_objects, Session.add_all.
  fold (objects_of objects). rewrite check_exists_spec. simpl. rewrite Hw.
  unfold flushed; simpl. do 2 f_equal.
  apply equals_In. rewrite (column_values_tables _ _ _ _ Hw).
  apply in_or_app. right. apply in_flat_map. exists e. split.
  - apply in_or_app. now right.
  - destruct e as [r | r | r | r], col as [c | c]; simpl in *;
      try discriminate; rewrite Hval; now left.
Qed.

Lemma insert_then_check_witness :
  (insert_objects (inr [Store.Company Sample.acme; Store.Filing Sample.filing_A1]) ;;
   check_accession_exists "A1") Sample.fresh
  = (flushed Sample.fresh Sample.acme_store, Ret true).
Proof.
  apply (insert_then_check
           (inr [Store.Company Sample.acme; Store.Filing Sample.filing_A1])
           (Store.Filing Sample.filing_A1) (Col.OfFiling Col.filing_accession)
           "A1" Sample.fresh Sample.acme_store).
  - right. left. reflexivity.
  - reflexivity.
  - reflexivity.
Defined.

(** X3. A value that no visible row and no staged object has in the column
    is reported as absent. *)
Theorem check_absent_value (col : Col.joined) (value : string)
  (self : EdgarDatabase) (st : Store.t) :
  Store.insert_all (session_rows self) (session_new self) = Some st ->
  ~ In (Some value) (Store.column_values (session_rows self) col) ->
  (forall e, In e (session_new self) -> entity_value e col <> Some value) ->
  _check_exists col value self = (flushed self st, Ret false).
Proof.
  intros Hw Hrows Hnew. rewrite check_exists_spec, Hw. do 2 f_equal.
  apply not_true_is_false. intros E. apply equals_In in E.
  rewrite (column_values_tables _ _ _ _ Hw) in E.
  apply in_app_or in E. destruct E as [E | E]; [now apply Hrows |].
  apply in_flat_map in E. destruct E as (e & He & Hv).
  apply (Hnew e He).
  destruct e as [r | r | r | r], col as [c | c]; simpl in *; try tauto;
    destruct Hv as [Hv | []]; exact Hv.
Qed.

Lemma check_absent_value_witness :
  check_filing_url_exists "https://example.org/a1" Sample.with_acme
  = (flushed Sample.with_acme Sample.acme_store, Ret false).
Proof.
  apply (check_absent_value (Col.OfFiling Col.filing_url)
           "https://example.org/a1" Sample.with_acme Sample.acme_store).
  - reflexivity.
  - simpl. intros [H | []]. discriminate H.
  - intros e [].
Defined.

(** ** Staging, closing, and violations that come late *)

Lemma existsb_app_l {A : Type} (f : A -> bool) (l l' : list A) :
  existsb f l = true -> existsb f (l ++ l') = true.
Proof. intros H. rewrite existsb_app, H. reflexivity. Qed.

(** An object the engine refuses stays refused when rows are added. *)
Lemma insert_refused_later (st st' : Store.t) (e e0 : Store.entity) :
  Store.insert st e = None ->
  Store.insert st e0 = Some st' ->
  Store.insert st' e = None.
Proof.
  intros Hno Hyes. apply insert_tables in Hyes.
  destruct Hyes as (Hs & Hc & Hf & Hd).
  destruct e as [r | r | r | r]; simpl in *.
  - rewrite Hs. destruct (existsb _ (Store.sic st)) eqn:E; [| discriminate].
    now rewrite (existsb_app_l _ _ _ E).
  - rewrite Hc. destruct (existsb _ (Store.companies st)) eqn:E; [| discriminate].
    now rewrite (existsb_app_l _ _ _ E).
  - rewrite Hf. destruct (existsb _ (Store.filings st)) eqn:E; [| discriminate].
    now rewrite (existsb_app_l _ _ _ E).
  - rewrite Hd. destruct (FilingData.filing_term r); [reflexivity | |];
      (destruct (existsb _ (Store.filing_data st)) eqn:E; [| discriminate]);
      now rewrite (existsb_app_l _ _ _ E).
Qed.

Lemma insert_all_refused (e : Store.entity) (before after : list Store.entity) :
  forall st,
    Store.insert st e = None ->
    Store.insert_all st (before ++ e :: after) = None.
Proof.
  induction before as [| e0 before IH]; intros st Hno; simpl.
  - rewrite Hno. now destruct (Store.converts e).
  - destruct (Store.converts e0); [| reflexivity].
    destruct (Store.insert st e0) as [st' |] eqn:E0; [| reflexivity].
    apply IH. exact (insert_refused_later _ _ _ _ Hno E0).
Qed.

Lemma refusal_not_connection (st : Store.t) (es : list Store.entity) :
  is_ConnectionError (Store.refusal st es) = false.
Proof.
  pose proof (refusal_write_error st es) as H.
  destruct (Store.refusal st es); simpl in *; congruence.
Qed.

Lemma forallb_incl {A : Type} (f : A -> bool) (l l' : list A) :
  incl l l' -> forallb f l' = true -> forallb f l = true.
Proof.
  intros Hi H. apply forallb_forall. intros x Hx.
  rewrite forallb_forall in H. apply H, Hi, Hx.
Qed.

Lemma with_terms_incl (es : list Store.entity) : incl (Store.with_terms es) es.
Proof.
  induction es as [| e es IH]; simpl; [apply incl_refl |].
  destruct (Store.has_term e).
  - intros x [-> | Hx]; [now left | right; now apply IH].
  - intros x [].
Qed.

(** When every staged object converts, a flush can only fail at the
    engine. *)
Lemma refusal_at_engine (st : Store.t) (es : list Store.entity) :
  forallb Store.converts es = true -> Store.refusal st es = IntegrityError.
Proof.
  intros H. unfold Store.refusal.
  destruct (Store.accept_all st _); [| reflexivity].
  assert (incl (filter Store.is_data es) es) as Hp by apply incl_filter.
  rewrite (forallb_incl _ (Store.with_terms (filter Store.is_data es)) es);
    [| eapply incl_tran; [apply with_terms_incl | exact Hp] | exact H].
  simpl. destruct (Store.accept_all _ _); [| reflexivity].
  destruct (skipn _ _) as [| e l] eqn:E; [reflexivity |].
  assert (In e es) as He.
  { apply Hp. rewrite <- (firstn_skipn (List.length
              (Store.with_terms (filter Store.is_data es)))
              (filter Store.is_data es)).
    apply in_or_app. right. rewrite E. now left. }
  rewrite forallb_forall in H. now rewrite (H e He).
Qed.

Lemma close_session_spec (self : EdgarDatabase) :
  close_session self =
  match Store.insert_all (session_rows self) (session_new self) with
  | Some st => (committed_as self st, Ret tt)
  | None => (self, Raise (Store.refusal (session_rows self) (session_new self)))
  end.
Proof.
  unfold close_session, try_except_as, Session.commit, Session.close.
  unfold bind at 1. unfold bind at 1. unfold Session.flush at 1.
  destruct (Store.insert_all _ _) as [st |]; [reflexivity |].
  now rewrite refusal_not_connection.
Qed.

Lemma select_all_filings_spec (self : EdgarDatabase) :
  select_all_filings self =
  match Store.insert_all (session_rows self) (session_new self) with
  | Some st => (flushed self st, Ret (Store.join st))
  | None => (self, Raise (Store.refusal (session_rows self) (session_new self)))
  end.
Proof.
  unfold select_all_filings, Session.query_filings_all.
  unfold bind at 1. unfold Session.flush at 1.
  destruct (Store.insert_all _ _) as [st |]; reflexivity.
Qed.

(** X4. [insert_objects] checks nothing: an object whose key is already
    among the visible rows (or whose key cell is missing) is staged like
    any other and the call returns. The violation comes out of the next
    operation that writes the staged objects: from that state an existence
    check, the listing of all filings and [close_session] each raise the
    error of the failed write, and none of them changes the committed
    database. The error is the integrity error whenever every staged value
    converts; a staged data point whose value is no number can turn it
    into the statement error. *)
Theorem staged_violation_surfaces_later
  (objects : Store.entity + list Store.entity) (e : Store.entity)
  (self : EdgarDatabase) :
  In e (objects_of objects) ->
  Store.insert (session_rows self) e = None ->
  let staged := staged_with self (objects_of objects) in
  exists err,
    (err = IntegrityError \/ err = StatementError) /\
    (forallb Store.converts (session_new staged) = true -> err = IntegrityError) /\
    insert_objects objects self = (staged, Ret tt) /\
    (forall col value,
        snd (_check_exists col value staged) = Raise err /\
        db_eng (fst (_check_exists col value staged)) = db_eng self) /\
    (snd (select_all_filings staged) = Raise err /\
     db_eng (fst (select_all_filings staged)) = db_eng self) /\
    (snd (close_session staged) = Raise err /\
     db_eng (fst (close_session staged)) = db_eng self).
Proof.
  intros Hin Hno staged.
  assert (Store.insert_all (session_rows staged) (session_new staged) = None) as Hw.
  { apply in_split in Hin. destruct Hin as (l1 & l2 & E). simpl. rewrite E.
    rewrite app_assoc. now apply insert_all_refused. }
  exists (Store.refusal (session_rows staged) (session_new staged)).
  split; [| split; [apply refusal_at_engine |]].
  - pose proof (refusal_write_error (session_rows staged) (session_new staged)) as H.
    destruct (Store.refusal _ _); simpl in H; try discriminate; auto.
  - split; [reflexivity |]. split; [| split].
    + intros col value. rewrite check_exists_spec, Hw. now split.
    + rewrite select_all_filings_spec, Hw. now split.
    + rewrite close_session_spec, Hw. now split.
Qed.

Lemma staged_violation_surfaces_later_witness :
  let staged := staged_with Sample.with_acme [Store.Company Sample.acme] in
  exists err,
    (err = IntegrityError \/ err = StatementError) /\
    (forallb Store.converts (session_new staged) = true -> err = IntegrityError) /\
    insert_objects (inl (Store.Company Sample.acme)) Sample.with_acme
    = (staged, Ret tt) /\
    (forall col value,
        snd (_check_exists col value staged) = Raise err /\
        db_eng (fst (_check_exists col value staged)) = db_eng Sample.with_acme) /\
    (snd (select_all_filings staged) = Raise err /\
     db_eng (fst (select_all_filings staged)) = db_eng Sample.with_acme) /\
    (snd (close_session staged) = Raise err /\
     db_eng (fst (close_session staged)) = db_eng Sample.with_acme).
Proof.
  apply (staged_violation_surfaces_later (inl (Store.Company Sample.acme))
           (Store.Company Sample.acme) Sample.with_acme).
  - left. reflexivity.
  - reflexivity.
Defined.

(** A company whose cik is taken, staged alone: the integrity error. *)
Example staged_company_twice :
  snd (close_session (staged_with Sample.with_acme [Store.Company Sample.acme]))
  = Raise IntegrityError.
Proof. reflexivity. Qed.

(** A data point whose key is taken, staged with a data point whose value
    is no number: the values of the batch are bound before any row is
    sent, so the statement error comes first. *)
Example staged_point_twice_with_text :
  let point := FilingData.mk "A1" (CStr "Revenue") "10-K" (CStr "100") "20201231" in
  let text := FilingData.mk "A1" (CStr "Costs") "10-K" (CStr "n/a") "20201231" in
  let st := Store.mk [] [Sample.acme] [Sample.filing_A1] [point] in
  Store.insert st (Store.Data point) = None /\
  snd (close_session (staged_with (mk_db st st [] [] [])
                                  [Store.Data point; Store.Data text]))
  = Raise StatementError.
Proof. split; reflexivity. Qed.

(** X5. [close_session], when the staged objects can be written, commits:
    each committed table is then the table the session saw followed by the
    staged objects of that table in staging order, nothing is left staged
    and the session holds no uncommitted change. *)
Theorem close_session_commits (self : EdgarDatabase) (st : Store.t) :
  Store.insert_all (session_rows self) (session_new self) = Some st ->
  exists self',
    close_session self = (self', Ret tt) /\
    session_clean self' /\
    Store.sic (db_eng self')
    = Store.sic (session_rows self) ++ staged_sic (session_new self) /\
    Store.companies (db_eng self')
    = Store.companies (session_rows self) ++ staged_companies (session_new self) /\
    Store.filings (db_eng self')
    = Store.filings (session_rows self) ++ staged_filings (session_new self) /\
    Store.filing_data (db_eng self')
    = Store.filing_data (session_rows self) ++ staged_data (session_new self).
Proof.
  intros Hw. exists (committed_as self st).
  rewrite close_session_spec, Hw. split; [reflexivity |].
  split; [split; reflexivity |].
  apply insert_all_tables in Hw. exact Hw.
Qed.

Lemma close_session_commits_witness :
  exists self',
    close_session (staged_with Sample.fresh
                     [Store.Company Sample.acme; Store.Filing Sample.filing_A1])
    = (self', Ret tt) /\
    session_clean self' /\
    Store.sic (db_eng self') = [] ++ [] /\
    Store.companies (db_eng self') = [] ++ [Sample.acme] /\
    Store.filings (db_eng self') = [] ++ [Sample.filing_A1] /\
    Store.filing_data (db_eng self') = [] ++ [].
Proof.
  apply (close_session_commits
           (staged_with Sample.fresh
              [Store.Company Sample.acme; Store.Filing Sample.filing_A1])
           Sample.acme_store).
  reflexivity.
Defined.

(** ** Recording the path of a downloaded spreadsheet *)

Lemma with_paths_accession (v : option string) (f : FilingInfo.t) :
  FilingInfo.filing_accession (FilingInfo.with_excel_path v f)
  = FilingInfo.filing_accession f.
Proof. reflexivity. Qed.

(** The loop over the loaded filings sets the path on the rows that have
    the accession of one of them. *)
Lemma set_paths_loaded (v : option string) (cs : list FilingInfo.t) :
  forall self,
    for_each cs (fun c => Session.set_excel_path c v) self
    = (mk_db (db_eng self)
             (with_paths (accession_among (map FilingInfo.filing_accession cs)) v
                         (session_rows self))
             (session_new self) (queries self) (stdout self), Ret tt).
Proof.
  induction cs as [| c cs IH]; intros self.
  - destruct self as [d [s co fs da] n q o]. unfold with_paths; simpl.
    unfold ret. now rewrite map_id.
  - simpl for_each. unfold bind at 1. unfold Session.set_excel_path at 1.
    rewrite IH. simpl. unfold with_paths, Store.update_excel_path; simpl.
    do 3 f_equal. rewrite map_map. apply map_ext. intros f.
    unfold accession_among. simpl.
    destruct (String.eqb (FilingInfo.filing_accession f)
                         (FilingInfo.filing_accession c)) eqn:E; simpl.
    + now destruct (existsb _ _).
    + reflexivity.
Qed.

Lemma update_excel_path_spec (excel_path filing_url : string)
  (self : EdgarDatabase) :
  update_excel_path excel_path filing_url self =
  match Store.insert_all (session_rows self) (session_new self) with
  | None => (self, Raise (Store.refusal (session_rows self) (session_new self)))
  | Some st =>
      (flushed self
         (with_paths
            (accession_among
               (map FilingInfo.filing_accession
                    (filter (has_url filing_url) (Store.filings st))))
            (Some excel_path) st),
       Ret tt)
  end.
Proof.
  unfold update_excel_path, Session.query_filing_by_url.
  unfold bind at 1. unfold bind at 1. unfold Session.flush at 1.
  destruct (Store.insert_all _ _) as [st |]; [| reflexivity].
  unfold bind at 1. unfold Session.rows, ret. rewrite set_paths_loaded.
  reflexivity.
Qed.

Lemma unique_key_same_row {A K : Type} (key : A -> K) (l : list A) (a b : A) :
  NoDup (map key l) -> In a l -> In b l -> key a = key b -> a = b.
Proof.
  induction l as [| x l IH]; simpl; [tauto |].
  intros Hnd Ha Hb E. apply NoDup_cons_iff in Hnd. destruct Hnd as [Hx Hnd].
  destruct Ha as [-> | Ha], Hb as [-> | Hb]; auto.
  - exfalso. apply Hx. rewrite E. now apply in_map.
  - exfalso. apply Hx. rewrite <- E. now apply in_map.
Qed.

(** With unique accessions, the rows that share an accession with a filing
    of the URL are the filings of the URL. *)
Lemma accession_among_has_url (filing_url : string) (fs : list FilingInfo.t)
  (f : FilingInfo.t) :
  NoDup (map FilingInfo.filing_accession fs) ->
  In f fs ->
  accession_among (map FilingInfo.filing_accession (filter (has_url filing_url) fs)) f
  = has_url filing_url f.
Proof.
  intros Hnd Hf. unfold accession_among.
  destruct (has_url filing_url f) eqn:E.
  - apply existsb_exists. exists (FilingInfo.filing_accession f).
    split; [| apply String.eqb_refl].
    apply in_map, filter_In. now split.
  - apply not_true_is_false. intros H. apply existsb_exists in H.
    destruct H as (a & Ha & Eq). apply String.eqb_eq in Eq. subst a.
    apply in_map_iff in Ha. destruct Ha as (c & Ec & Hc).
    apply filter_In in Hc. destruct Hc as [Hc Hurl].
    assert (c = f) by (eapply unique_key_same_row; eauto). subst c.
    congruence.
Qed.

Lemma Forall2_map_each {A : Type} (R : A -> A -> Prop) (g : A -> A) (l : list A) :
  (forall a, In a l -> R a (g a)) -> Forall2 R l (map g l).
Proof.
  induction l as [| a l IH]; intros H; simpl; constructor.
  - apply H. now left.
  - apply IH. intros b Hb. apply H. now right.
Qed.

Lemma has_url_iff (filing_url : string) (f : FilingInfo.t) :
  has_url filing_url f = true <-> FilingInfo.filing_url f = Some filing_url.
Proof.
  unfold has_url, Store.equals. destruct (FilingInfo.filing_url f) as [u |].
  - rewrite String.eqb_eq. split; [now intros -> | now intros [= ->]].
  - split; discriminate.
Qed.

(** X6. [update_excel_path], when the staged objects can be written and no
    two visible filings share an accession, returns normally and leaves the
    filings of the open transaction row by row as they were written, except
    that a filing whose URL is the given one has the given path as its
    [excel_path], every other field unchanged; a filing with another URL or
    none is untouched, and so are the other tables. A URL that no filing
    has changes nothing. The change is made inside the open transaction
    only: the committed database is as before, nothing stays staged, and
    the call itself does not commit. *)
Theorem update_excel_path_sets_paths (excel_path filing_url : string)
  (self : EdgarDatabase) (st : Store.t) :
  Store.insert_all (session_rows self) (session_new self) = Some st ->
  accessions_unique st ->
  exists self',
    update_excel_path excel_path filing_url self = (self', Ret tt) /\
    db_eng self' = db_eng self /\
    session_new self' = [] /\
    queries self' = queries self /\
    stdout self' = stdout self /\
    Store.sic (session_rows self') = Store.sic st /\
    Store.companies (session_rows self') = Store.companies st /\
    Store.filing_data (session_rows self') = Store.filing_data st /\
    Forall2
      (fun f f' =>
         (FilingInfo.filing_url f = Some filing_url ->
          f' = FilingInfo.mk (FilingInfo.company_cik f)
                             (FilingInfo.filing_accession f)
                             (FilingInfo.form f) (FilingInfo.period f)
                             (FilingInfo.filed f) (FilingInfo.filing_url f)
                             (FilingInfo.excel_url f) (Some excel_path)
                             (FilingInfo.parsed_data f)
                             (FilingInfo.parsing_attempted f)) /\
         (FilingInfo.filing_url f <> Some filing_url -> f' = f))
      (Store.filings st) (Store.filings (session_rows self')) /\
    ((forall f, In f (Store.filings st) ->
                FilingInfo.filing_url f <> Some filing_url) ->
     session_rows self' = st).
Proof.
  intros Hw Hu. rewrite update_excel_path_spec, Hw.
  assert (with_paths
            (accession_among
               (map FilingInfo.filing_accession
                    (filter (has_url filing_url) (Store.filings st))))
            (Some excel_path) st
          = with_paths (has_url filing_url) (Some excel_path) st) as ->.
  { unfold with_paths. f_equal. apply map_ext_in. intros f Hf.
    now rewrite accession_among_has_url. }
  eexists. split; [reflexivity |].
  repeat (split; [reflexivity |]). split.
  - simpl. apply Forall2_map_each. intros f _.
    destruct (has_url filing_url f) eqn:E.
    + apply has_url_iff in E. split; [reflexivity | now intros H].
    + split; [| reflexivity]. intros H. apply has_url_iff in H. congruence.
  - intros Hnone. destruct st as [s co fs da].
    unfold with_paths; simpl in *. f_equal.
    rewrite <- (map_id fs) at 2. apply map_ext_in. intros f Hf.
    destruct (has_url filing_url f) eqn:E; [| reflexivity].
    apply has_url_iff in E. now elim (Hnone f Hf).
Qed.

Lemma update_excel_path_sets_paths_witness :
  exists self',
    update_excel_path "/tmp/b2.xlsx" "https://example.org/b2"
                      Sample.with_two_filings = (self', Ret tt) /\
    db_eng self' = db_eng Sample.with_two_filings /\
    session_new self' = [] /\
    queries self' = queries Sample.with_two_filings /\
    stdout self' = stdout Sample.with_two_filings /\
    Store.sic (session_rows self') = Store.sic Sample.two_filings /\
    Store.companies (session_rows self') = Store.companies Sample.two_filings /\
    Store.filing_data (session_rows self') = Store.filing_data Sample.two_filings /\
    Forall2
      (fun f f' =>
         (FilingInfo.filing_url f = Some "https://example.org/b2" ->
          f' = FilingInfo.mk (FilingInfo.company_cik f)
                             (FilingInfo.filing_accession f)
                             (FilingInfo.form f) (FilingInfo.period f)
                             (FilingInfo.filed f) (FilingInfo.filing_url f)
                             (FilingInfo.excel_url f) (Some "/tmp/b2.xlsx")
                             (FilingInfo.parsed_data f)
                             (FilingInfo.parsing_attempted f)) /\
         (FilingInfo.filing_url f <> Some "https://example.org/b2" -> f' = f))
      (Store.filings Sample.two_filings) (Store.filings (session_rows self')) /\
    ((forall f, In f (Store.filings Sample.two_filings) ->
                FilingInfo.filing_url f <> Some "https://example.org/b2") ->
     session_rows self' = Sample.two_filings).
Proof.
  apply (update_excel_path_sets_paths "/tmp/b2.xlsx" "https://example.org/b2"
           Sample.with_two_filings Sample.two_filings).
  - reflexivity.
  - unfold accessions_unique. simpl.
    repeat constructor; simpl; intuition discriminate.
Defined.

(** The path lands on filing B2 and not on filing A1. *)
Example update_excel_path_rows :
  map FilingInfo.excel_path
      (Store.filings
         (session_rows (fst (update_excel_path "/tmp/b2.xlsx"
                               "https://example.org/b2" Sample.with_two_filings))))
  = [None; Some "/tmp/b2.xlsx"].
Proof. reflexivity. Qed.

(** ** What the joins return *)

Lemma In_join (st : Store.t) (f : FilingInfo.t) (c : CompanyInfo.t) :
  In (f, c) (Store.join st) <->
  In f (Store.filings st) /\ In c (Store.companies st) /\
  FilingInfo.company_cik f = Some (CompanyInfo.company_cik c).
Proof.
  unfold Store.join. rewrite in_flat_map. split.
  - intros (f0 & Hf0 & Hin). apply in_map_iff in Hin.
    destruct Hin as (c0 & E & Hc0). injection E as -> ->.
    apply filter_In in Hc0. destruct Hc0 as [Hc Hk].
    destruct (FilingInfo.company_cik f) as [k |]; [| discriminate].
    apply String.eqb_eq in Hk. subst k. auto.
  - intros (Hf & Hc & Hk). exists f. split; [exact Hf |].
    apply in_map, filter_In. split; [exact Hc |].
    rewrite Hk. apply String.eqb_refl.
Qed.

(** X7. [select_all_filings], when the staged objects can be written,
    returns the pairs of a visible filing and a visible company in which
    the filing's company reference is the company's cik, and only those: a
    filing without a company reference, or whose company is not in the
    table, is in no pair. *)
Theorem select_all_filings_pairs (self : EdgarDatabase) (st : Store.t) :
  Store.insert_all (session_rows self) (session_new self) = Some st ->
  exists pairs,
    select_all_filings self = (flushed self st, Ret pairs) /\
    forall f c,
      In (f, c) pairs <->
      In f (Store.filings st) /\ In c (Store.companies st) /\
      FilingInfo.company_cik f = Some (CompanyInfo.company_cik c).
Proof.
  intros Hw. exists (Store.join st). rewrite select_all_filings_spec, Hw.
  split; [reflexivity |]. intros f c. apply In_join.
Qed.

Lemma select_all_filings_pairs_witness :
  exists pairs,
    select_all_filings Sample.with_two_filings
    = (flushed Sample.with_two_filings Sample.two_filings, Ret pairs) /\
    forall f c,
      In (f, c) pairs <->
      In f (Store.filings Sample.two_filings) /\
      In c (Store.companies Sample.two_filings) /\
      FilingInfo.company_cik f = Some (CompanyInfo.company_cik c).
Proof.
  apply (select_all_filings_pairs Sample.with_two_filings Sample.two_filings).
  reflexivity.
Defined.

Lemma in__concat (v : option string) (chunks : list (list string)) :
  Store.in_ v (List.concat chunks) = true <->
  exists chunk, In chunk chunks /\ Store.in_ v chunk = true.
Proof.
  destruct v as [s |]; simpl.
  - rewrite existsb_exists. split.
    + intros (x & Hx & E). apply in_concat in Hx.
      destruct Hx as (chunk & Hc & Hin). exists chunk. split; [exact Hc |].
      apply existsb_exists. now exists x.
    + intros (chunk & Hc & E). apply existsb_exists in E.
      destruct E as (x & Hx & E). exists x. split; [| exact E].
      apply in_concat. now exists chunk.
  - split; [discriminate | intros (chunk & _ & H); discriminate].
Qed.

Lemma In_chunked (st : Store.t) (col : Col.joined) (chunks : list (list string))
  (r : FilingInfo.t * CompanyInfo.t) :
  In r (flatten (map (Store.filings_in st col) chunks)) <->
  In r (Store.join st) /\
  Store.in_ (Col.joined_value col r) (List.concat chunks) = true.
Proof.
  unfold flatten. rewrite in_concat, in__concat. split.
  - intros (rows & Hrows & Hr). apply in_map_iff in Hrows.
    destruct Hrows as (chunk & <- & Hc). apply filter_In in Hr.
    destruct Hr as [Hj Hin]. split; [exact Hj |]. now exists chunk.
  - intros (Hj & chunk & Hc & Hin). exists (Store.filings_in st col chunk).
    split; [now apply in_map |]. apply filter_In. now split.
Qed.

Lemma select_filings_In (col : Col.joined) (terms : list string)
  (self : EdgarDatabase) (st : Store.t) :
  Store.insert_all (session_rows self) (session_new self) = Some st ->
  exists pairs,
    snd (_select_filings col terms self) = Ret pairs /\
    forall r,
      In r pairs <->
      In r (Store.join st) /\ Store.in_ (Col.joined_value col r) terms = true.
Proof.
  intros Hw. destruct (Nat.ltb (List.length terms) 999) eqn:Hlen.
  - apply Nat.ltb_lt in Hlen.
    rewrite (select_filings_single_query col terms self st Hlen Hw).
    eexists. split; [reflexivity |]. intros r. apply filter_In.
  - apply Nat.ltb_ge in Hlen.
    rewrite (select_filings_chunked col terms self st Hlen Hw).
    eexists. split; [reflexivity |]. intros r.
    rewrite In_chunked, query_term_chunks_concat. reflexivity.
Qed.

(** X8. A filtered lookup of filings, short or chunked, when the staged
    objects can be written, returns a pair exactly when the pair is in the
    join of all filings (what [select_all_filings] returns) and its column
    is one of the terms: no matching pair is left out and none that does
    not match is returned, whatever the length of the list and whether or
    not terms repeat. *)
Theorem select_filings_membership (col : Col.joined) (terms : list string)
  (self : EdgarDatabase) (st : Store.t) :
  Store.insert_all (session_rows self) (session_new self) = Some st ->
  exists pairs,
    snd (_select_filings col terms self) = Ret pairs /\
    forall r,
      In r pairs <->
      In r (Store.join st) /\ Store.in_ (Col.joined_value col r) terms = true.
Proof.
  intros Hw. destruct (Nat.ltb (List.length terms) 999) eqn:Hlen.
  - apply Nat.ltb_lt in Hlen.
    rewrite (select_filings_single_query col terms self st Hlen Hw).
    eexists. split; [reflexivity |]. intros r. apply filter_In.
  - apply Nat.ltb_ge in Hlen.
    rewrite (select_filings_chunked col terms self st Hlen Hw).
    eexists. split; [reflexivity |]. intros r.
    rewrite In_chunked, query_term_chunks_concat. reflexivity.
Qed.

Lemma select_filings_membership_witness :
  exists pairs,
    snd (select_filings_by_accessions Sample.accessions_repeating
           Sample.with_two_filings) = Ret pairs /\
    forall r,
      In r pairs <->
      In r (Store.join Sample.two_filings) /\
      Store.in_ (Col.joined_value (Col.OfFiling Col.filing_accession) r)
                Sample.accessions_repeating = true.
Proof.
  apply (select_filings_membership (Col.OfFiling Col.filing_accession)
           Sample.accessions_repeating Sample.with_two_filings Sample.two_filings).
  reflexivity.
Defined.

(** X9. A filtered lookup with an empty list of terms sends one query and
    returns no pair. *)
Theorem select_filings_no_terms (col : Col.joined) (self : EdgarDatabase)
  (st : Store.t) :
  Store.insert_all (session_rows self) (session_new self) = Some st ->
  _select_filings col [] self =
  (mk_db (db_eng self) st [] (queries self ++ [SelectFilingsIn col []])
         (stdout self), Ret []).
Proof.
  intros Hw. rewrite (select_filings_single_query col [] self st); [| simpl; lia | exact Hw].
  do 2 f_equal. unfold Store.filings_in.
  induction (Store.join st) as [| r rows IH]; simpl; [reflexivity |].
  destruct (Col.joined_value col r); exact IH.
Qed.

Lemma select_filings_no_terms_witness :
  select_filings_by_ciks [] Sample.with_two_filings =
  (mk_db Sample.two_filings Sample.two_filings []
         [SelectFilingsIn (Col.OfCompany Col.company_cik) []] [], Ret []).
Proof.
  apply (select_filings_no_terms (Col.OfCompany Col.company_cik)
           Sample.with_two_filings Sample.two_filings).
  reflexivity.
Defined.

(** X10. The chunks of a list of terms, put end to end in order, are the
    list; every chunk has at least one and at most 995 terms, so no chunk
    query is empty and none comes near the engine's limit of parameters. *)
Theorem query_term_chunks_partition (terms : list string) :
  List.concat (query_term_chunks terms) = terms /\
  Forall (fun chunk => 1 <= List.length chunk <= 995) (query_term_chunks terms).
Proof.
  split; [apply query_term_chunks_concat |].
  unfold query_term_chunks, range_step. apply Forall_forall. intros chunk Hin.
  apply in_map_iff in Hin. destruct Hin as (i & <- & Hi).
  apply in_map_iff in Hi. destruct Hi as (k & <- & Hk).
  apply in_seq in Hk. unfold slice.
  set (n := List.length terms) in *.
  pose proof (Nat.div_mod_eq (n + 995 - 1) 995) as E.
  pose proof (Nat.mod_upper_bound (n + 995 - 1) 995 ltac:(discriminate)) as B.
  rewrite length_firstn, length_skipn. fold n. lia.
Qed.

(** ** Ingestion: what a call leaves behind *)

Section IngestionFacts.
Variable parse : string -> outcome Date.datetime.
Variables (filing : FilingInfo.t * CompanyInfo.t) (data : Np.ndarray)
          (filing_type : string).

Local Abbreviation accession := (FilingInfo.filing_accession (fst filing)).
Local Abbreviation step := (column_step parse filing data filing_type).
Local Abbreviation batch :=
  (fun column_num period =>
     map (record_of accession filing_type column_num period)
         (filter has_value (Np.below_header data))).

(** The loop body ends in one of three ways: [False] is returned and
    nothing was committed, an exception escapes and nothing changed, or the
    column's batch was written and committed. *)
Lemma column_step_cases (column_num : nat) (self self1 : EdgarDatabase)
  (o : outcome (flow unit bool)) :
  step column_num self = (self1, o) ->
  (o = Ret (Return false) /\ db_eng self1 = db_eng self) \/
  (exists e, o = Raise e /\ self1 = self) \/
  (o = Ret (Next tt) /\
   exists period st,
     header_of parse data column_num = HeaderPeriod period /\
     Store.insert_all (session_rows self)
                      (session_new self ++ map Store.Data (batch column_num period))
     = Some st /\
     self1 = column_committed self accession st).
Proof.
  rewrite column_step_spec.
  destruct (header_of parse data column_num) as [period | | | e] eqn:Hh.
  - destruct (rows_to_insert _ _ _ _ _) as [records | e] eqn:Hr.
    + apply rows_to_insert_shape in Hr. subst records.
      destruct (Store.insert_all _ _) as [st |] eqn:E.
      * intros H; injection H as <- <-. right; right. split; [reflexivity |].
        now exists period, st.
      * intros H; injection H as <- <-. left. now split.
    + intros H; injection H as <- <-. right; left. now exists e.
  - intros H; injection H as <- <-. left. now split.
  - intros H; injection H as <- <-. left. now split.
  - intros H; injection H as <- <-. right; left. now exists e.
Qed.

Lemma column_committed_clean (self : EdgarDatabase) (st : Store.t) :
  session_clean (column_committed self accession st).
Proof. split; reflexivity. Qed.

Lemma column_committed_flag (self : EdgarDatabase) (st : Store.t)
  (f : FilingInfo.t) :
  In f (Store.filings (db_eng (column_committed self accession st))) ->
  FilingInfo.filing_accession f = accession ->
  FilingInfo.parsed_data f = Some true.
Proof.
  simpl. intros Hin Hacc. apply in_map_iff in Hin.
  destruct Hin as (f0 & E & _).
  destruct (String.eqb (FilingInfo.filing_accession f0) accession) eqn:Eq.
  - now subst f.
  - subst f0. rewrite Hacc, String.eqb_refl in Eq. discriminate.
Qed.

Lemma column_committed_batch (self : EdgarDatabase) (st : Store.t)
  (records : list FilingData.t) :
  Store.insert_all (session_rows self)
                   (session_new self ++ map Store.Data records) = Some st ->
  incl records (Store.filing_data (db_eng (column_committed self accession st))).
Proof.
  intros Hst. apply insert_all_tables in Hst. destruct Hst as (_ & _ & _ & Hd).
  simpl. rewrite Hd. autorewrite with staged.
  apply incl_appr, incl_appr, incl_refl.
Qed.

(** A parsed-data flag that is true stays true through later columns. *)
Lemma loop_keeps_flag (cs : list nat) :
  forall self self' r,
    for_in cs step true self = (self', r) ->
    session_clean self ->
    (forall f, In f (Store.filings (db_eng self)) ->
               FilingInfo.filing_accession f = accession ->
               FilingInfo.parsed_data f = Some true) ->
    session_clean self' /\
    (forall f, In f (Store.filings (db_eng self')) ->
               FilingInfo.filing_accession f = accession ->
               FilingInfo.parsed_data f = Some true).
Proof.
  induction cs as [| c cs IH]; intros self self' r.
  - simpl. unfold ret. intros H; injection H as <- _. auto.
  - rewrite for_in_cons. destruct (step c self) as [s1 o] eqn:Hstep.
    intros H Hclean Hflag.
    destruct (column_step_cases _ _ _ _ Hstep)
      as [[-> Hdb] | [(e & -> & ->) | [-> (period & st & _ & _ & ->)]]].
    + injection H as <- _.
      rewrite column_step_spec in Hstep. destruct Hclean as [Hn Hr].
      destruct (header_of parse data c);
        [destruct (rows_to_insert _ _ _ _ _);
         [destruct (Store.insert_all _ _) |] | | |];
        injection Hstep as <-; try discriminate;
        (split; [split; [try exact Hn | try exact Hr]; reflexivity | exact Hflag]).
    + injection H as <- _. auto.
    + apply IH in H; [exact H | apply column_committed_clean |].
      intros f. apply column_committed_flag.
Qed.

Lemma loop_success (cs : list nat) :
  forall self self',
    for_in cs step true self = (self', Ret true) ->
    forall c, In c cs ->
      exists period,
        header_of parse data c = HeaderPeriod period /\
        incl (batch c period) (Store.filing_data (db_eng self')).
Proof.
  induction cs as [| c0 cs IH]; intros self self' H c Hc; [destruct Hc |].
  rewrite for_in_cons in H. destruct (step c0 self) as [s1 o] eqn:Hstep.
  destruct (column_step_cases _ _ _ _ Hstep)
    as [[-> _] | [(e & -> & _) | [-> (period & st & Hh & Hst & ->)]]];
    try discriminate.
  destruct Hc as [<- | Hc].
  - exists period. split; [exact Hh |].
    eapply incl_tran; [apply (column_committed_batch _ _ _ Hst) |].
    eapply (committed_data_kept parse filing data filing_type cs); [exact H |].
    apply incl_refl.
  - exact (IH _ _ H c Hc).
Qed.

Lemma loop_success_state (c0 : nat) (cs : list nat) :
  forall self self',
    for_in (c0 :: cs) step true self = (self', Ret true) ->
    session_clean self' /\
    (forall f, In f (Store.filings (db_eng self')) ->
               FilingInfo.filing_accession f = accession ->
               FilingInfo.parsed_data f = Some true).
Proof.
  intros self self' H. rewrite for_in_cons in H.
  destruct (step c0 self) as [s1 o] eqn:Hstep.
  destruct (column_step_cases _ _ _ _ Hstep)
    as [[-> _] | [(e & -> & _) | [-> (period & st & Hh & Hst & ->)]]];
    try discriminate.
  eapply loop_keeps_flag; [exact H | apply column_committed_clean |].
  intros f. apply column_committed_flag.
Qed.

End IngestionFacts.

Lemma set_filing_data_true_facts
  (parse : string -> outcome Date.datetime)
  (filing : FilingInfo.t * CompanyInfo.t) (data : Np.ndarray)
  (filing_type : string) (self self' : EdgarDatabase) :
  2 <= Np.shape1 data ->
  set_filing_data parse filing data filing_type self = (self', Ret true) ->
  (forall column_num,
      1 <= column_num < Np.shape1 data ->
      exists period,
        header_of parse data column_num = HeaderPeriod period /\
        incl (map (record_of (FilingInfo.filing_accession (fst filing))
                             filing_type column_num period)
                  (filter has_value (Np.below_header data)))
             (Store.filing_data (db_eng self'))) /\
  (forall f,
      In f (Store.filings (db_eng self')) ->
      FilingInfo.filing_accession f = FilingInfo.filing_accession (fst filing) ->
      FilingInfo.parsed_data f = Some true) /\
  session_clean self'.
Proof.
  unfold set_filing_data. intros Hn H. split; [| split].
  - intros c Hc. apply (loop_success _ _ _ _ _ _ _ H).
    unfold range. apply in_seq. lia.
  - unfold range in H. destruct (Np.shape1 data - 1) as [| k] eqn:E; [lia |].
    simpl seq in H. apply (loop_success_state _ _ _ _ _ _ _ _ H).
  - unfold range in H. destruct (Np.shape1 data - 1) as [| k] eqn:E; [lia |].
    simpl seq in H. apply (loop_success_state _ _ _ _ _ _ _ _ H).
Qed.

(** X11. When [set_filing_data] returns true for an array with at least
    one data column, every data column was processed: its header gave a
    period and the record of every row below the header with a truthy
    trailing cell is among the committed data points; every committed
    filing with the ingested accession has its parsed-data flag true; and
    the session is left with nothing staged and nothing uncommitted. *)
Theorem set_filing_data_true
  (parse : string -> outcome Date.datetime)
  (filing : FilingInfo.t * CompanyInfo.t) (data : Np.ndarray)
  (filing_type : string) (self self' : EdgarDatabase) :
  2 <= Np.shape1 data ->
  set_filing_data parse filing data filing_type self = (self', Ret true) ->
  (forall column_num,
      1 <= column_num < Np.shape1 data ->
      exists period,
        header_of parse data column_num = HeaderPeriod period /\
        incl (map (record_of (FilingInfo.filing_accession (fst filing))
                             filing_type column_num period)
                  (filter has_value (Np.below_header data)))
             (Store.filing_data (db_eng self'))) /\
  (forall f,
      In f (Store.filings (db_eng self')) ->
      FilingInfo.filing_accession f = FilingInfo.filing_accession (fst filing) ->
      FilingInfo.parsed_data f = Some true) /\
  session_clean self'.
Proof.
  unfold set_filing_data. intros Hn H. split; [| split].
  - intros c Hc. apply (loop_success _ _ _ _ _ _ _ H).
    unfold range. apply in_seq. lia.
  - unfold range in H. destruct (Np.shape1 data - 1) as [| k] eqn:E; [lia |].
    simpl seq in H. apply (loop_success_state _ _ _ _ _ _ _ _ H).
  - unfold range in H. destruct (Np.shape1 data - 1) as [| k] eqn:E; [lia |].
    simpl seq in H. apply (loop_success_state _ _ _ _ _ _ _ _ H).
Qed.

Lemma set_filing_data_true_witness :
  exists self',
    set_filing_data MonthDayYear.parse (Sample.filing_A1, Sample.acme)
                    Sample.with_blanks "10-K" Sample.with_acme = (self', Ret true) /\
    (forall column_num,
        1 <= column_num < 3 ->
        exists period,
          header_of MonthDayYear.parse Sample.with_blanks column_num
          = HeaderPeriod period /\
          incl (map (record_of "A1" "10-K" column_num period)
                    (filter has_value (Np.below_header Sample.with_blanks)))
               (Store.filing_data (db_eng self'))) /\
    (forall f,
        In f (Store.filings (db_eng self')) ->
        FilingInfo.filing_accession f = "A1" ->
        FilingInfo.parsed_data f = Some true) /\
    session_clean self'.
Proof.
  eexists. split; [vm_compute; reflexivity |].
  apply (set_filing_data_true MonthDayYear.parse (Sample.filing_A1, Sample.acme)
           Sample.with_blanks "10-K" Sample.with_acme).
  - simpl. lia.
  - vm_compute. reflexivity.
Defined.

Lemma number_eqb_refl (n : Number.t) : Number.eqb n n = true.
Proof.
  destruct n as [m p | b |]; simpl;
    [now rewrite Z.eqb_refl, Nat.eqb_refl | now destruct b | reflexivity].
Qed.

Lemma same_key_refl (r : FilingData.t) : FilingData.same_key r r = true.
Proof.
  unfold FilingData.same_key. rewrite String.eqb_refl.
  destruct (Number.to_text _); destruct (Number.of_integer_column _); simpl;
    rewrite ?String.eqb_refl, ?number_eqb_refl; reflexivity.
Qed.

(** A data point that is already in the table is refused. *)
Lemma insert_present_data (st : Store.t) (r : FilingData.t) :
  In r (Store.filing_data st) -> Store.insert st (Store.Data r) = None.
Proof.
  intros Hin. simpl.
  assert (existsb (FilingData.same_key r) (Store.filing_data st) = true) as ->.
  { apply existsb_exists. exists r. split; [exact Hin | apply same_key_refl]. }
  now destruct (FilingData.filing_term r).
Qed.

(** X12. Ingesting the same spreadsheet for the same filing a second time
    is refused: after a call that returned true, when the first data column
    has at least one row with a truthy trailing cell, the same call on the
    state it left returns false and leaves that state, and with it the
    committed database, as it is. *)
Theorem set_filing_data_twice
  (parse : string -> outcome Date.datetime)
  (filing : FilingInfo.t * CompanyInfo.t) (data : Np.ndarray)
  (filing_type : string) (self self' : EdgarDatabase) :
  2 <= Np.shape1 data ->
  filter has_value (Np.below_header data) <> [] ->
  set_filing_data parse filing data filing_type self = (self', Ret true) ->
  set_filing_data parse filing data filing_type self' = (self', Ret false).
Proof.
  intros Hn Hrows H.
  destruct (set_filing_data_true_facts _ _ _ _ _ _ Hn H) as (Hcols & _ & Hnew & Hsame).
  destruct (Hcols 1 ltac:(lia)) as (period & Hh & Hincl).
  unfold set_filing_data, range.
  destruct (Np.shape1 data - 1) as [| k] eqn:E; [lia |].
  simpl seq. rewrite for_in_cons, column_step_spec, Hh.
  destruct (rows_to_insert _ _ _ _ _) as [records | e] eqn:Hr.
  - apply rows_to_insert_shape in Hr. subst records.
    destruct (filter has_value (Np.below_header data)) as [| row rows] eqn:Ef;
      [now elim Hrows |].
    assert (Store.insert (session_rows self')
              (Store.Data (record_of (FilingInfo.filing_accession (fst filing))
                                     filing_type 1 period row)) = None) as Hno.
    { apply insert_present_data. rewrite Hsame. apply Hincl. now left. }
    pose proof (insert_all_refused _ []
                  (map Store.Data
                       (map (record_of (FilingInfo.filing_accession (fst filing))
                                       filing_type 1 period) rows))
                  _ Hno) as Hall.
    simpl app in Hall. rewrite Hnew. simpl app. simpl map. rewrite Hall.
    destruct self' as [d s n q o]. simpl in *. subst. reflexivity.
  - exfalso. unfold set_filing_data, range in H. rewrite E in H.
    simpl seq in H. rewrite for_in_cons, column_step_spec, Hh, Hr in H.
    discriminate H.
Qed.

Lemma set_filing_data_twice_witness :
  let self' := fst (set_filing_data MonthDayYear.parse
                      (Sample.filing_A1, Sample.acme) Sample.one_period "10-K"
                      Sample.with_acme) in
  set_filing_data MonthDayYear.parse (Sample.filing_A1, Sample.acme)
                  Sample.one_period "10-K" self' = (self', Ret false).
Proof.
  intros self'.
  apply (set_filing_data_twice MonthDayYear.parse (Sample.filing_A1, Sample.acme)
           Sample.one_period "10-K" Sample.with_acme self').
  - simpl. lia.
  - discriminate.
  - vm_compute. reflexivity.
Defined.

(** X13. With at most one data column the ingestion is all or nothing: a
    call that does not return true, whether it returns false or lets an
    exception escape, leaves the committed database as it was. *)
Theorem set_filing_data_single_period_atomic
  (parse : string -> outcome Date.datetime)
  (filing : FilingInfo.t * CompanyInfo.t) (data : Np.ndarray)
  (filing_type : string) (self self' : EdgarDatabase) (r : outcome bool) :
  Np.shape1 data <= 2 ->
  set_filing_data parse filing data filing_type self = (self', r) ->
  r <> Ret true ->
  db_eng self' = db_eng self.
Proof.
  unfold set_filing_data, range. intros Hn H Hr.
  destruct (Np.shape1 data - 1) as [| [| k]] eqn:E; [| | lia].
  - simpl in H. unfold ret in H. injection H as <- <-. now elim Hr.
  - simpl seq in H. rewrite for_in_cons in H.
    destruct (column_step parse filing data filing_type 1 self) as [s1 o] eqn:Hstep.
    destruct (column_step_cases _ _ _ _ _ _ _ _ Hstep)
      as [[-> Hdb] | [(e & -> & ->) | [-> _]]].
    + injection H as <- _. exact Hdb.
    + injection H as <- _. reflexivity.
    + simpl in H. unfold ret in H. injection H as _ <-. now elim Hr.
Qed.

Lemma set_filing_data_single_period_atomic_witness :
  db_eng (fst (set_filing_data MonthDayYear.parse (Sample.filing_A1, Sample.acme)
                 Sample.repeated_term "10-K" Sample.with_acme))
  = db_eng Sample.with_acme.
Proof.
  apply (set_filing_data_single_period_atomic MonthDayYear.parse
           (Sample.filing_A1, Sample.acme) Sample.repeated_term "10-K"
           Sample.with_acme _ (Ret false)).
  - simpl. lia.
  - vm_compute. reflexivity.
  - discriminate.
Defined.

(** X14. [set_filing_data] removes no committed data point: in a session
    whose open transaction sees every committed data point, each data
    point committed before the call is committed after it, however the
    call ends. *)
Theorem set_filing_data_keeps_data
  (parse : string -> outcome Date.datetime)
  (filing : FilingInfo.t * CompanyInfo.t) (data : Np.ndarray)
  (filing_type : string) (self self' : EdgarDatabase) (r : outcome bool) :
  incl (Store.filing_data (db_eng self)) (Store.filing_data (session_rows self)) ->
  set_filing_data parse filing data filing_type self = (self', r) ->
  incl (Store.filing_data (db_eng self)) (Store.filing_data (db_eng self')).
Proof.
  intros Hincl H. unfold set_filing_data in H.
  exact (committed_data_kept _ _ _ _ _ _ _ _ H Hincl).
Qed.

Lemma set_filing_data_keeps_data_witness :
  let self1 := fst (set_filing_data MonthDayYear.parse
                      (Sample.filing_A1, Sample.acme) Sample.one_period "10-K"
                      Sample.with_acme) in
  incl (Store.filing_data (db_eng self1))
       (Store.filing_data
          (db_eng (fst (set_filing_data MonthDayYear.parse
                          (Sample.filing_A1, Sample.acme)
                          Sample.second_header_bad "10-K" self1)))).
Proof.
  intros self1.
  apply (set_filing_data_keeps_data MonthDayYear.parse
           (Sample.filing_A1, Sample.acme) Sample.second_header_bad "10-K"
           self1 _ (Ret false)).
  - apply incl_refl.
  - vm_compute. reflexivity.
Defined.

(** ** The header text *)

Lemma replace_absent (old new : string) (s : string) :
  contains old s = false -> Str.replace s old new = s.
Proof.
  unfold Str.replace. induction s as [| c s IH]; [reflexivity |].
  intros H.
  change (contains old (String c s))
    with (String.prefix old (String c s) || contains old s) in H.
  apply orb_false_elim in H. destruct H as [Hp Hc].
  change (Str.replace_from 0 old new (String c s))
    with (if String.prefix old (String c s)
          then (new ++ Str.replace_from (String.length old - 1) old new s)%string
          else String c (Str.replace_from 0 old new s)).
  rewrite Hp, IH by exact Hc. reflexivity.
Qed.

(** X16. A header text in which the currency note [USD ($)] does not occur
    goes to the date parser as it is. *)
Theorem prep_date_without_note (s : string) :
  contains "USD ($)" s = false -> prep_date (CStr s) = Some s.
Proof. intros H. simpl. now rewrite replace_absent. Qed.

Lemma prep_date_without_note_witness :
  prep_date (CStr "Dec. 31, 2020") = Some "Dec. 31, 2020".
Proof. apply prep_date_without_note. reflexivity. Defined.

(** ** Listing ciks *)

Lemma like_anything (s : string) : Str.like "%%" s = true.
Proof.
  change "%%" with ("%" ++ "" ++ "%")%string.
  rewrite like_contains by reflexivity. now destruct s.
Qed.

Lemma insert_in_order_perm (x : string) (l : list string) :
  Permutation (Store.insert_in_order x l) (x :: l).
Proof.
  induction l as [| y l IH]; simpl; [reflexivity |].
  destruct (String.leb x y); [reflexivity |].
  rewrite IH. apply perm_swap.
Qed.

Lemma in_key_order_perm (l : list string) : Permutation (Store.in_key_order l) l.
Proof.
  induction l as [| x l IH]; simpl; [reflexivity |].
  rewrite insert_in_order_perm. now constructor.
Qed.

Lemma in_key_order_In (x : string) (l : list string) :
  In x (Store.in_key_order l) <-> In x l.
Proof.
  split; apply Permutation_in;
    [apply in_key_order_perm | symmetry; apply in_key_order_perm].
Qed.

Lemma in_key_order_length (l : list string) :
  List.length (Store.in_key_order l) = List.length l.
Proof. apply Permutation_length, in_key_order_perm. Qed.

Lemma insert_in_order_sorted (x : string) (l : list string) :
  Sorted (fun a b => String.leb a b = true) l -> Sorted (fun a b => String.leb a b = true) (Store.insert_in_order x l).
Proof.
  induction l as [| y l IH]; intros Hs; simpl.
  - repeat constructor.
  - destruct (String.leb x y) eqn:E.
    + constructor; [exact Hs |]. now constructor.
    + inversion Hs as [| ? ? Hl Hh]; subst. constructor; [now apply IH |].
      assert (String.leb y x = true) as Hyx.
      { destruct (String.leb_total x y) as [H | H]; [congruence | exact H]. }
      destruct l as [| z l]; simpl.
      * now constructor.
      * destruct (String.leb x z); constructor; [exact Hyx |].
        now inversion Hh.
Qed.

Lemma in_key_order_sorted (l : list string) : Sorted (fun a b => String.leb a b = true) (Store.in_key_order l).
Proof.
  induction l as [| x l IH]; simpl; [constructor |].
  now apply insert_in_order_sorted.
Qed.

Lemma select_all_distinct_ciks_spec (self : EdgarDatabase) :
  select_all_distinct_ciks self =
  match Store.insert_all (session_rows self) (session_new self) with
  | Some st =>
      (flushed self st,
       Ret (map CikRow.mk
                (Store.in_key_order
                   (map CompanyInfo.company_cik (Store.companies st)))))
  | None => (self, Raise (Store.refusal (session_rows self) (session_new self)))
  end.
Proof.
  unfold select_all_distinct_ciks, Session.query_ciks_all.
  unfold bind at 1. unfold Session.flush at 1.
  destruct (Store.insert_all _ _) as [st |]; reflexivity.
Qed.

Lemma all_named (cs : list CompanyInfo.t) :
  forallb has_name cs = true -> filter has_name cs = cs.
Proof.
  induction cs as [| c cs IH]; simpl; [reflexivity |].
  intros H. apply andb_prop in H. destruct H as [-> H]. now rewrite IH.
Qed.

(** X17. The lookup by name with the empty name matches every company
    that has a name: when there is one, it returns the cik values of all of
    them in table order. When every company has a name,
    [select_all_distinct_ciks] returns one row for each of these values,
    but in the order of the key, each cik at most the next, which need not
    be the table order of the lookup. *)
Theorem select_ciks_by_empty_name (self : EdgarDatabase) (st : Store.t) :
  Store.insert_all (session_rows self) (session_new self) = Some st ->
  filter has_name (Store.companies st) <> [] ->
  exists ciks,
    snd (select_ciks_by_name "" self) = Ret ciks /\
    ciks = map CompanyInfo.company_cik (filter has_name (Store.companies st)) /\
    (forallb has_name (Store.companies st) = true ->
     exists listed,
       snd (select_all_distinct_ciks self) = Ret listed /\
       Permutation (map CikRow.company_cik listed) ciks /\
       Sorted (fun a b => String.leb a b = true)
              (map CikRow.company_cik listed)).
Proof.
  intros Hw Hsome.
  exists (map CompanyInfo.company_cik (filter has_name (Store.companies st))).
  split; [| split; [reflexivity |]].
  - unfold select_ciks_by_name. rewrite select_distinct_ciks_spec, Hw.
    rewrite (filter_ext _ has_name).
    + destruct (filter has_name (Store.companies st)); [now elim Hsome | reflexivity].
    + intros c. unfold Str.ilike, has_name. simpl.
      destruct (CompanyInfo.company_name c); [apply like_anything | reflexivity].
  - intros Hall. rewrite select_all_distinct_ciks_spec, Hw. simpl.
    eexists. split; [reflexivity |].
    rewrite map_map, map_id, (all_named _ Hall).
    split; [apply in_key_order_perm | apply in_key_order_sorted].
Qed.

Lemma select_ciks_by_empty_name_witness :
  exists ciks,
    snd (select_ciks_by_name "" Sample.with_globex_first) = Ret ciks /\
    ciks = map CompanyInfo.company_cik
               (filter has_name (Store.companies Sample.globex_first)) /\
    (forallb has_name (Store.companies Sample.globex_first) = true ->
     exists listed,
       snd (select_all_distinct_ciks Sample.with_globex_first) = Ret listed /\
       Permutation (map CikRow.company_cik listed) ciks /\
       Sorted (fun a b => String.leb a b = true)
              (map CikRow.company_cik listed)).
Proof.
  apply (select_ciks_by_empty_name Sample.with_globex_first Sample.globex_first).
  - reflexivity.
  - discriminate.
Defined.

(** Globex entered before Acme: the lookup by the empty name answers in
    table order, the listing in key order. *)
Example globex_first_orders :
  snd (select_ciks_by_name "" Sample.with_globex_first) = Ret ["0002"; "0001"] /\
  snd (select_all_distinct_ciks Sample.with_globex_first)
  = Ret [CikRow.mk "0001"; CikRow.mk "0002"].
Proof. split; reflexivity. Qed.

(** X18. Listing and checking agree: when the staged objects can be
    written, [select_all_distinct_ciks] returns one row per visible company
    (no row when there is none; it does not exit), and on the state it
    leaves the existence check for a cik answers true exactly for the
    values in those rows. *)
Theorem listed_ciks_exist (self : EdgarDatabase) (st : Store.t) :
  Store.insert_all (session_rows self) (session_new self) = Some st ->
  exists self1 listed,
    select_all_distinct_ciks self = (self1, Ret listed) /\
    List.length listed = List.length (Store.companies st) /\
    forall cik,
      check_cik_exists cik self1 = (self1, Ret true) <-> In (CikRow.mk cik) listed.
Proof.
  intros Hw.
  exists (flushed self st),
         (map CikRow.mk
              (Store.in_key_order
                 (map CompanyInfo.company_cik (Store.companies st)))).
  rewrite select_all_distinct_ciks_spec, Hw.
  split; [reflexivity |].
  split; [now rewrite length_map, in_key_order_length, length_map |].
  intros cik. unfold check_cik_exists. rewrite check_exists_spec. simpl.
  split.
  - intros H. injection H as H. apply equals_In in H. simpl in H.
    apply in_map_iff in H. destruct H as (c & E & Hc). injection E as <-.
    apply in_map. apply (proj2 (in_key_order_In _ _)).
    now apply (in_map CompanyInfo.company_cik).
  - intros H. do 2 f_equal. apply equals_In. simpl.
    apply in_map_iff in H. destruct H as (k & E & Hk). injection E as <-.
    apply (proj1 (in_key_order_In _ _)) in Hk.
    apply in_map_iff in Hk. destruct Hk as (c & <- & Hc).
    apply in_map_iff. now exists c.
Qed.

Lemma listed_ciks_exist_witness :
  exists self1 listed,
    select_all_distinct_ciks Sample.with_two_companies = (self1, Ret listed) /\
    List.length listed = List.length (Store.companies Sample.two_companies) /\
    forall cik,
      check_cik_exists cik self1 = (self1, Ret true) <-> In (CikRow.mk cik) listed.
Proof.
  apply (listed_ciks_exist Sample.with_two_companies Sample.two_companies).
  reflexivity.
Defined.

(** X19. A new session starts from the committed database: objects that
    were staged and never closed are not there any more, and an existence
    check after [make_session] answers false for a value that no committed
    row has in the column, whatever was staged or written in the session
    that was replaced. *)
Theorem make_session_forgets_staged
  (objects : Store.entity + list Store.entity) (col : Col.joined)
  (value : string) (self : EdgarDatabase) :
  ~ In (Some value) (Store.column_values (db_eng self) col) ->
  (insert_objects objects ;; make_session ;; _check_exists col value) self
  = (rolled_back self, Ret false).
Proof.
  intros Habsent. unfold bind, insert_objects, Session.add_all, make_session.
  rewrite check_exists_spec. simpl. unfold flushed, rolled_back. simpl.
  do 2 f_equal. apply not_true_is_false. intros E. now apply equals_In in E.
Qed.

Lemma make_session_forgets_staged_witness :
  (insert_objects (inl (Store.Company Sample.globex)) ;;
   make_session ;;
   check_cik_exists "0002") Sample.with_acme
  = (rolled_back Sample.with_acme, Ret false).
Proof.
  apply (make_session_forgets_staged (inl (Store.Company Sample.globex))
           (Col.OfCompany Col.company_cik) "0002" Sample.with_acme).
  simpl. intros [H | []]. discriminate H.
Defined.

(** ** Lookups after inserts and after lookups *)

Lemma In_staged_companies (c : CompanyInfo.t) (es : list Store.entity) :
  In c (staged_companies es) <-> In (Store.Company c) es.
Proof.
  unfold staged_companies. rewrite in_flat_map. split.
  - intros (e & He & Hc). destruct e; simpl in Hc; try tauto.
    destruct Hc as [-> | []]. exact He.
  - intros H. exists (Store.Company c). simpl. auto.
Qed.

(** X20. Insert, then look up: once a company and a filing that refers to
    it are handed to [insert_objects] and the staged objects can be
    written, a filtered lookup whose terms include the value the pair has
    in the lookup's column (the company's cik, the filing's accession or
    its URL) returns the pair. *)
Theorem insert_then_select (objects : Store.entity + list Store.entity)
  (f : FilingInfo.t) (c : CompanyInfo.t) (col : Col.joined)
  (terms : list string) (value : string) (self : EdgarDatabase) (st : Store.t) :
  In (Store.Company c) (objects_of objects) ->
  In (Store.Filing f) (objects_of objects) ->
  FilingInfo.company_cik f = Some (CompanyInfo.company_cik c) ->
  Col.joined_value col (f, c) = Some value ->
  In value terms ->
  Store.insert_all (session_rows self) (session_new self ++ objects_of objects)
  = Some st ->
  exists pairs,
    snd ((insert_objects objects ;; _select_filings col terms) self) = Ret pairs /\
    In (f, c) pairs.
Proof.
  intros Hc Hf Hk Hv Hin Hw.
  unfold bind, insert_objects, Session.add_all. fold (objects_of objects).
  destruct (select_filings_In col terms (staged_with self (objects_of objects)) st Hw)
    as (pairs & E & Hiff).
  exists pairs. split; [exact E |]. apply Hiff. split.
  - apply insert_all_tables in Hw. destruct Hw as (_ & Hcs & Hfs & _).
    apply In_join. rewrite Hcs, Hfs. repeat split; [| | exact Hk].
    + apply in_or_app. right. apply In_staged_filings.
      apply in_or_app. now right.
    + apply in_or_app. right. apply In_staged_companies.
      apply in_or_app. now right.
  - rewrite Hv. now apply in__In.
Qed.

Lemma insert_then_select_witness :
  exists pairs,
    snd ((insert_objects
            (inr [Store.Company Sample.globex; Store.Filing Sample.filing_B2]) ;;
          select_filings_by_url ["https://example.org/b2"]) Sample.with_acme)
    = Ret pairs /\
    In (Sample.filing_B2, Sample.globex) pairs.
Proof.
  apply (insert_then_select
           (inr [Store.Company Sample.globex; Store.Filing Sample.filing_B2])
           Sample.filing_B2 Sample.globex (Col.OfFiling Col.filing_url)
           ["https://example.org/b2"] "https://example.org/b2"
           Sample.with_acme Sample.two_filings).
  - left. reflexivity.
  - right. left. reflexivity.
  - reflexivity.
  - reflexivity.
  - left. reflexivity.
  - reflexivity.
Defined.

(** X21. A lookup of ciks followed by the lookup of filings by those ciks:
    when the staged objects can be written and some company matches, the
    filings returned are the pairs of the join of all filings whose company
    has the cik of a matching company. *)
Theorem lookup_then_select_filings (l : lookup) (self : EdgarDatabase)
  (st : Store.t) :
  Store.insert_all (session_rows self) (session_new self) = Some st ->
  let matching :=
    filter (fun c => Str.ilike (Col.company_value (lookup_column l) c)
                               (lookup_pattern l))
           (Store.companies st) in
  matching <> [] ->
  exists pairs,
    snd ((ciks <- run_lookup l ;; select_filings_by_ciks ciks) self) = Ret pairs /\
    forall f c,
      In (f, c) pairs <->
      In (f, c) (Store.join st) /\
      In (CompanyInfo.company_cik c) (map CompanyInfo.company_cik matching).
Proof.
  intros Hw matching Hsome. unfold bind.
  rewrite run_lookup_eq, select_distinct_ciks_spec, Hw. fold matching.
  destruct matching as [| m ms] eqn:Em; [now elim Hsome |].
  destruct (select_filings_In (Col.OfCompany Col.company_cik)
              (map CompanyInfo.company_cik (m :: ms))
              (mk_db (db_eng self) st []
                     (queries self
                      ++ [SelectCiksLike (lookup_column l) (lookup_pattern l)])
                     (stdout self))
              st eq_refl) as (pairs & E & Hiff).
  exists pairs. split; [exact E |]. intros f c. rewrite Hiff. simpl Col.joined_value.
  rewrite in__In. reflexivity.
Qed.

Lemma lookup_then_select_filings_witness :
  exists pairs,
    snd ((ciks <- run_lookup (ByState "ca") ;; select_filings_by_ciks ciks)
           Sample.with_two_filings) = Ret pairs /\
    forall f c,
      In (f, c) pairs <->
      In (f, c) (Store.join Sample.two_filings) /\
      In (CompanyInfo.company_cik c)
         (map CompanyInfo.company_cik
              (filter (fun c => Str.ilike (Col.company_value Col.company_state c) "ca")
                      (Store.companies Sample.two_filings))).
Proof.
  apply (lookup_then_select_filings (ByState "ca") Sample.with_two_filings
           Sample.two_filings).
  - reflexivity.
  - discriminate.
Defined.
